(** * LazyList: a lazily evaluated, caching list over an iterator

    Shallow embedding of [src/lazy.py] (class [LazyList]) and proofs of
    its behaviour.

    Modelling decisions, all taken from the source:
    - the wrapped iterator is [iter(iterable)] over a finite iterable; it
      is modelled by the list of elements it has not produced yet, and
      [next] removes the head or raises [StopIteration];
    - [self._iterator = None] is [_iterator := None];
    - Python integers are unbounded, hence [Z];
    - exceptions are values of [exn]; a method is a state-passing function
      [LazyList -> LazyList * res A] (monad [M]);
    - [next_calls] is instrumentation only: it counts the calls of
      [next(self._iterator)] that reached the wrapped iterator, which is
      what a counting wrapper around the source would observe. No method
      reads it. *)

From Stdlib Require Import ZArith Lia.
From stdpp Require Import base list numbers.

Local Open Scope Z_scope.

(** ** Exceptions and results *)

Inductive exn : Type :=
  | StopIteration
  | IndexError
  | TypeError
  | ValueError
  | RuntimeError.

Inductive res (A : Type) : Type :=
  | Ok (a : A)
  | Raise (e : exn).
Arguments Ok {A} a.
Arguments Raise {A} e.

(** [sys.maxsize] on a 64-bit CPython. *)
Definition sys_maxsize : Z := 2 ^ 63 - 1.

(** A [slice] object; an omitted bound or step is [None]. *)
Record slice : Type := Slice {
  start : option Z;
  stop : option Z;
  step : option Z
}.

(** The argument of [__getitem__]/[_get]: an integer, or a [slice]
    ([isinstance(desired_index, slice)]). *)
Inductive subscript : Type :=
  | Index (i : Z)
  | Sliced (s : slice).

(** How a [StopIteration] that escapes a generator body reaches the
    consumer.  [Legacy] is the generator protocol of Python 2 and of
    Python 3 up to 3.6, the versions the file is written for (it defines
    [__nonzero__] next to [__bool__], raises [StopIteration] inside a
    generator to end it, and its docstring examples [list(il)] and
    [bool(LazyList(range(0)))] only pass there): the generator just
    ends.  [PEP479] is Python 3.7
    and later: the escaping [StopIteration] is replaced by
    [RuntimeError]. *)
Inductive generator_protocol : Type :=
  | Legacy
  | PEP479.

Section LazyList.

Context {T : Type}.

(** What [_get] returns: one element, or a list for a slice. *)
Inductive value : Type :=
  | Item (x : T)
  | Items (l : list T).

Record LazyList : Type := mkLazyList {
  _expanded : list T;
  _iterator : option (list T);
  _expanded_len : Z;
  next_calls : nat
}.

(** ** The method monad *)

Definition M (A : Type) : Type := LazyList -> LazyList * res A.

Definition ret {A} (a : A) : M A := fun self => (self, Ok a).

Definition raise {A} (e : exn) : M A := fun self => (self, Raise e).

Definition bind {A B} (c : M A) (k : A -> M B) : M B :=
  fun self =>
    match c self with
    | (self', Ok a) => k a self'
    | (self', Raise e) => (self', Raise e)
    end.

(** [try: c  except <handled by h>: ...]; [h] re-raises what the
    [except] clause does not catch. *)
Definition try_except {A} (c : M A) (h : exn -> M A) : M A :=
  fun self =>
    match c self with
    | (self', Ok a) => (self', Ok a)
    | (self', Raise e) => h e self'
    end.

Notation "c1 ;;; c2" := (bind c1 (fun _ => c2))
  (at level 100, right associativity).

(** ** Python list reads: [l[i]] and [l[start:stop:step]] *)

Definition py_len (l : list T) : Z := Z.of_nat (length l).

(** [l[i]] for an integer [i]. *)
Definition list_getitem (l : list T) (i : Z) : res T :=
  let j := if i <? 0 then i + py_len l else i in
  if (j <? 0) || (py_len l <=? j) then Raise IndexError
  else match l !! Z.to_nat j with
       | Some x => Ok x
       | None => Raise IndexError
       end.

(** Clamping of one slice bound, as [slice.indices] does. *)
Definition adjust_bound (len step : Z) (b : option Z) (dflt_pos dflt_neg : Z)
  : Z :=
  match b with
  | None => if step <? 0 then dflt_neg else dflt_pos
  | Some v =>
      if v <? 0 then
        let v' := v + len in
        if v' <? 0 then (if step <? 0 then -1 else 0) else v'
      else if len <=? v then (if step <? 0 then len - 1 else len)
      else v
  end.

(** Number of selected positions. *)
Definition slice_length (start stop step : Z) : nat :=
  if 0 <? step then
    if start <? stop then Z.to_nat ((stop - start - 1) / step + 1) else O
  else
    if stop <? start then Z.to_nat ((start - stop - 1) / (- step) + 1) else O.

Fixpoint slice_collect (l : list T) (cur step : Z) (count : nat) : list T :=
  match count with
  | O => []
  | S count' =>
      match l !! Z.to_nat cur with
      | Some x => x :: slice_collect l (cur + step) step count'
      | None => []
      end
  end.

(** [l[start:stop:step]]. *)
Definition list_getslice (l : list T) (s : slice) : res (list T) :=
  let st := match step s with None => 1 | Some v => v end in
  if st =? 0 then Raise ValueError
  else
    let len := py_len l in
    let lo := adjust_bound len st (start s) 0 (len - 1) in
    let hi := adjust_bound len st (stop s) len (-1) in
    Ok (slice_collect l lo st (slice_length lo hi st)).

(** [self._expanded[desired_index]]. *)
Definition list_subscript (l : list T) (desired_index : subscript)
  : res value :=
  match desired_index with
  | Index i =>
      match list_getitem l i with
      | Ok x => Ok (Item x)
      | Raise e => Raise e
      end
  | Sliced s =>
      match list_getslice l s with
      | Ok xs => Ok (Items xs)
      | Raise e => Raise e
      end
  end.

(** ** [LazyList.__init__] *)

Definition __init__ (iterable : list T) : LazyList :=
  {| _expanded := [];
     _iterator := Some iterable;
     _expanded_len := 0;
     next_calls := O |}.

(** ** [LazyList.expand_to_index] *)

(** The [while] loop while [self._iterator] is an iterator.  It recurses
    on the elements the iterator still holds: every round of the loop
    calls [next] once. *)
Fixpoint expand_loop (desired_index : Z) (it : list T)
    (expanded : list T) (expanded_len : Z) (calls : nat)
  : LazyList * res unit :=
  if expanded_len <=? desired_index then
    match it with
    | [] =>
        (* except StopIteration: self._iterator = None; raise *)
        ({| _expanded := expanded;
            _iterator := None;
            _expanded_len := expanded_len;
            next_calls := S calls |}, Raise StopIteration)
    | next_val :: it' =>
        expand_loop desired_index it'
          (expanded ++ [next_val]) (expanded_len + 1) (S calls)
    end
  else
    ({| _expanded := expanded;
        _iterator := Some it;
        _expanded_len := expanded_len;
        next_calls := calls |}, Ok tt).

(** With [self._iterator] set to [None], [next(None)] raises [TypeError]
    in the first round of the loop, before anything is changed. *)
Definition expand_to_index (desired_index : Z) : M unit :=
  fun self =>
    match _iterator self with
    | Some it =>
        expand_loop desired_index it
          (_expanded self) (_expanded_len self) (next_calls self)
    | None =>
        if _expanded_len self <=? desired_index
        then (self, Raise TypeError)
        else (self, Ok tt)
    end.

(** ** [LazyList.expand_to_slice] *)

(** [desired_slice.stop or sys.maxsize]: Python's [or] yields its right
    operand when the left one is falsy, and both [None] and [0] are. *)
Definition stop_or_maxsize (desired_slice : slice) : Z :=
  match stop desired_slice with
  | None => sys_maxsize
  | Some v => if v =? 0 then sys_maxsize else v
  end.

Definition set_iterator_None : M unit :=
  fun self =>
    ({| _expanded := _expanded self;
        _iterator := None;
        _expanded_len := _expanded_len self;
        next_calls := next_calls self |}, Ok tt).

Definition expand_to_slice (desired_slice : slice) : M unit :=
  let max := stop_or_maxsize desired_slice in
  try_except (expand_to_index max)
    (fun e =>
       match e with
       | IndexError | StopIteration => set_iterator_None
       | _ => raise e
       end).

(** ** [LazyList._get] and [LazyList.__getitem__] *)

Definition _get (desired_index : subscript) : M value :=
  (fun self =>
     match _iterator self with
     | Some _ =>
         match desired_index with
         | Sliced desired_slice => expand_to_slice desired_slice self
         | Index i => expand_to_index i self
         end
     | None => (self, Ok tt)
     end) ;;;
  (fun self => (self, list_subscript (_expanded self) desired_index)).

Definition __getitem__ (desired_index : subscript) : M value :=
  try_except (_get desired_index)
    (fun e =>
       match e with
       | StopIteration => raise IndexError
       | _ => raise e
       end).

(** ** [LazyList.__iter__]: the generator [iterate] *)

(** The frame of one generator object: not started yet, suspended at the
    [yield] with its local [index], or finished. *)
Inductive generator : Type :=
  | Created
  | Suspended (index : Z)
  | Finished.

(** An exception leaving the generator body. *)
Definition escape (p : generator_protocol) (e : exn) : exn :=
  match p, e with
  | PEP479, StopIteration => RuntimeError
  | _, _ => e
  end.

(** One round of [while True] for the given [index]. *)
Definition iterate_round (p : generator_protocol) (index : Z)
    (self : LazyList) : LazyList * generator * res value :=
  match _get (Index index) self with
  | (self', Ok v) => (self', Suspended index, Ok v)
  | (self', Raise IndexError) =>
      (* except IndexError: raise StopIteration *)
      (self', Finished, Raise (escape p StopIteration))
  | (self', Raise e) => (self', Finished, Raise (escape p e))
  end.

(** [next(g)] on a generator returned by [__iter__].  Resuming after the
    [yield] runs [index += 1] and the next round. *)
Definition gen_next (p : generator_protocol) (g : generator)
    (self : LazyList) : LazyList * generator * res value :=
  match g with
  | Created => iterate_round p 0 self
  | Suspended index => iterate_round p (index + 1) self
  | Finished => (self, Finished, Raise StopIteration)
  end.

(** ** [LazyList.__bool__] *)

(** [for _ in self: return True] followed by [return False]: one [next]
    on a new generator. *)
Definition __bool__ (p : generator_protocol) : M bool :=
  fun self =>
    match gen_next p Created self with
    | (self', _, Ok _) => (self', Ok true)
    | (self', _, Raise StopIteration) => (self', Ok false)
    | (self', _, Raise e) => (self', Raise e)
    end.

(** ** [LazyList.__len__] *)

Definition __len__ : M Z :=
  try_except (expand_to_index sys_maxsize)
    (fun e =>
       match e with
       | StopIteration => ret tt
       | _ => raise e
       end) ;;;
  (fun self => (self, Ok (py_len (_expanded self)))).

(** ** Consumers of the iterator protocol *)

(** [list(g)], or a [for] loop that collects: [next] until
    [StopIteration].  [None] only when [fuel] rounds were not enough. *)
Fixpoint collect (p : generator_protocol) (fuel : nat) (g : generator)
    (self : LazyList) : option (LazyList * res (list value)) :=
  match fuel with
  | O => None
  | S fuel' =>
      match gen_next p g self with
      | (self', g', Ok v) =>
          match collect p fuel' g' self' with
          | Some (self'', Ok vs) => Some (self'', Ok (v :: vs))
          | other => other
          end
      | (self', _, Raise StopIteration) => Some (self', Ok [])
      | (self', _, Raise e) => Some (self', Raise e)
      end
  end.

Context `{EqDecision T}.

#[local] Instance value_eq_dec : EqDecision value.
Proof. solve_decision. Defined.

(** [v in self].  The class defines no [__contains__], so Python falls
    back on [__iter__]: the elements are produced in order and compared
    with [==]; the first equal one gives [True], the end of the
    iteration [False]. *)
Fixpoint contains_loop (p : generator_protocol) (fuel : nat) (v : value)
    (g : generator) (self : LazyList) : option (LazyList * res bool) :=
  match fuel with
  | O => None
  | S fuel' =>
      match gen_next p g self with
      | (self', g', Ok y) =>
          if decide (y = v) then Some (self', Ok true)
          else contains_loop p fuel' v g' self'
      | (self', _, Raise StopIteration) => Some (self', Ok false)
      | (self', _, Raise e) => Some (self', Raise e)
      end
  end.

Definition contains (p : generator_protocol) (fuel : nat) (v : value)
    (self : LazyList) : option (LazyList * res bool) :=
  contains_loop p fuel v Created self.

End LazyList.

Arguments LazyList T : clear implicits.
Arguments value T : clear implicits.
Arguments M T A : clear implicits.

(** ** Well-formed states and the logical sequence *)

Section Views.

Context {T : Type}.

(** The counter agrees with the cache. *)
Definition wf (self : LazyList T) : Prop :=
  _expanded_len self = py_len (_expanded self).

(** What the iterator still holds ([[]] once it is dropped). *)
Definition pending (self : LazyList T) : list T :=
  default [] (_iterator self).

(** The full logical sequence: what was pulled, then what is left. *)
Definition logical (self : LazyList T) : list T :=
  _expanded self ++ pending self.

(** The state in which the first [n] elements of [xs] are cached and the
    iterator is still held. *)
Definition state_at (xs : list T) (n calls : nat) : LazyList T :=
  {| _expanded := take n xs;
     _iterator := Some (drop n xs);
     _expanded_len := Z.of_nat n;
     next_calls := calls |}.

(** The state after exhaustion: everything cached, iterator dropped. *)
Definition exhausted (xs : list T) (calls : nat) : LazyList T :=
  {| _expanded := xs;
     _iterator := None;
     _expanded_len := py_len xs;
     next_calls := calls |}.

(** What an operation may do to a state: the counter still agrees with
    the cache, the old cache is a prefix of the new one, a dropped
    iterator stays dropped, and the logical sequence is the same. *)
Definition extends (self self' : LazyList T) : Prop :=
  wf self'
  /\ _expanded self `prefix_of` _expanded self'
  /\ (_iterator self = None -> _iterator self' = None)
  /\ logical self' = logical self.

(** The generator frame that asks for index [j] at its next resumption. *)
Definition gen_at (j : nat) : generator :=
  match j with
  | O => Created
  | S j' => Suspended (Z.of_nat j')
  end.

(** Runs [__getitem__] on each subscript in turn, keeping every result
    (the caller catches an [IndexError] and goes on). *)
Fixpoint getitems (subs : list subscript) (self : LazyList T)
  : LazyList T * list (res (value T)) :=
  match subs with
  | [] => (self, [])
  | sub :: subs' =>
      let (self1, r) := __getitem__ sub self in
      let (self2, rs) := getitems subs' self1 in
      (self2, r :: rs)
  end.

End Views.

(** ** The public operations as one step function *)

Section Operations.

Context {T : Type} `{EqDecision T}.

Inductive op : Type :=
  | OpGetitem (sub : subscript)
  | OpNext (g : generator)
  | OpLen
  | OpBool
  | OpContains (v : value T)
  | OpExpandToIndex (desired_index : Z)
  | OpExpandToSlice (desired_slice : slice).

(** The state an operation leaves behind; [None] only when [fuel] did
    not suffice for the membership loop. *)
Definition exec (p : generator_protocol) (fuel : nat) (o : op)
    (self : LazyList T) : option (LazyList T) :=
  match o with
  | OpGetitem sub => Some (__getitem__ sub self).1
  | OpNext g => Some (gen_next p g self).1.1
  | OpLen => Some (__len__ self).1
  | OpBool => Some (__bool__ p self).1
  | OpContains v => fst <$> contains p fuel v self
  | OpExpandToIndex d => Some (expand_to_index d self).1
  | OpExpandToSlice s => Some (expand_to_slice s self).1
  end.

End Operations.

(** ** Several cursors, runs of operations, and the cost of a step *)

Section Runs.

Context {T : Type} `{EqDecision T}.

(** Two generators returned by two calls of [__iter__] on one adapter,
    resumed in the order [schedule] gives ([true]: the first one).  The
    results of each are kept apart. *)
Fixpoint interleave (p : generator_protocol) (schedule : list bool)
    (g1 g2 : generator) (self : LazyList T)
  : LazyList T * (generator * generator)
    * (list (res (value T)) * list (res (value T))) :=
  match schedule with
  | [] => (self, (g1, g2), ([], []))
  | true :: schedule' =>
      let '(self1, g1', r) := gen_next p g1 self in
      let '(self2, gs, (rs1, rs2)) := interleave p schedule' g1' g2 self1 in
      (self2, gs, (r :: rs1, rs2))
  | false :: schedule' =>
      let '(self1, g2', r) := gen_next p g2 self in
      let '(self2, gs, (rs1, rs2)) := interleave p schedule' g1 g2' self1 in
      (self2, gs, (rs1, r :: rs2))
  end.

(** How often [b] occurs in a schedule. *)
Fixpoint turns (b : bool) (schedule : list bool) : nat :=
  match schedule with
  | [] => O
  | b' :: schedule' =>
      if Bool.eqb b b' then S (turns b schedule') else turns b schedule'
  end.

(** A run of operations, each on the state the one before left. *)
Fixpoint exec_all (p : generator_protocol) (fuel : nat) (ops : list (@op T))
    (self : LazyList T) : option (LazyList T) :=
  match ops with
  | [] => Some self
  | o :: ops' =>
      match exec p fuel o self with
      | Some self' => exec_all p fuel ops' self'
      | None => None
      end
  end.

(** What one operation does to a well-formed state, with its cost: every
    element that enters the cache costs one call of [next], dropping the
    iterator costs one more (the call that failed), and a state without
    iterator is left alone. *)
Inductive advance : LazyList T -> LazyList T -> Prop :=
  | advance_pull xs n m calls :
      (n <= m <= length xs)%nat ->
      advance (state_at xs n calls) (state_at xs m (calls + (m - n)))
  | advance_drain xs n calls :
      (n <= length xs)%nat ->
      advance (state_at xs n calls)
        (exhausted xs (S (calls + (length xs - n))))
  | advance_none xs calls :
      advance (exhausted xs calls) (exhausted xs calls).

(** Every cached element was pulled by exactly one call of [next], and
    one more call was made if the iterator has been dropped. *)
Definition accounted (self : LazyList T) : Prop :=
  next_calls self =
    (length (_expanded self)
     + match _iterator self with Some _ => 0 | None => 1 end)%nat.

End Runs.

(** ** The examples of the docstrings *)

Definition range (n : nat) : list Z := seqZ 0 (Z.of_nat n).

Example doctest_class_fresh :
  _expanded_len (__init__ (range 100)) = 0
  /\ py_len (_expanded (__init__ (range 100))) = 0.
Proof. split; reflexivity. Qed.

Example doctest_class_index :
  let (il, r) := __getitem__ (Index 42) (__init__ (range 100)) in
  r = Ok (Item 42) /\ _expanded_len il = 43.
Proof. vm_compute. split; reflexivity. Qed.

Example doctest_class_contains :
  let (il, _) := __getitem__ (Index 42) (__init__ (range 100)) in
  exists il', contains Legacy 100 (Item 55) il = Some (il', Ok true)
              /\ _expanded_len il' = 56.
Proof. vm_compute. eexists; split; reflexivity. Qed.

Example doctest_iter_list :
  exists il, collect Legacy 11 Created (__init__ (range 10))
             = Some (il, Ok (Item <$> range 10))
             /\ py_len (_expanded il) = 10.
Proof. vm_compute. eexists; split; reflexivity. Qed.

Example doctest_iter_two_cursors :
  let il0 := __init__ (range 10) in
  let '(il1, i1, r1) := gen_next Legacy Created il0 in
  let '(il2, i1, r2) := gen_next Legacy i1 il1 in
  let '(il3, i2, r3) := gen_next Legacy Created il2 in
  let '(il4, i1, r4) := gen_next Legacy i1 il3 in
  [r1; r2; r3; r4] = [Ok (Item 0); Ok (Item 1); Ok (Item 0); Ok (Item 2)]
  /\ _expanded il4 = [0; 1; 2] /\ next_calls il4 = 3%nat.
Proof. vm_compute. repeat split; reflexivity. Qed.

Example doctest_getitem :
  let (il1, r1) := __getitem__ (Index 5) (__init__ (range 10)) in
  let (il2, r2) := __getitem__ (Sliced (Slice (Some 5) (Some 8) None)) il1 in
  r1 = Ok (Item 5) /\ _expanded il1 = [0; 1; 2; 3; 4; 5]
  /\ r2 = Ok (Items [5; 6; 7]) /\ _expanded il2 = [0; 1; 2; 3; 4; 5; 6; 7; 8].
Proof. vm_compute. repeat split; reflexivity. Qed.

Example doctest_bool :
  (__bool__ Legacy (__init__ (range 0))).2 = Ok false
  /\ (let (il, r) := __bool__ Legacy (__init__ (range 10)) in
      r = Ok true /\ _expanded il = [0]).
Proof. vm_compute. repeat split; reflexivity. Qed.

(** ** The expansion loop *)

Section Expansion.

Context {T : Type}.
Implicit Types (self : LazyList T) (xs it expanded : list T).

(** The loop pulls the [need] elements the counter is short of, or all
    that is left followed by one failing [next]. *)
Lemma expand_loop_spec d it expanded len calls :
  expand_loop d it expanded len calls =
    let need := Z.to_nat (d + 1 - len) in
    if decide (need <= length it)%nat then
      (mkLazyList (expanded ++ take need it) (Some (drop need it))
         (len + Z.of_nat need) (calls + need), Ok tt)
    else
      (mkLazyList (expanded ++ it) None
         (len + py_len it) (S (calls + length it)), Raise StopIteration).
Proof.
  revert expanded len calls.
  induction it as [|x it IH]; intros expanded len calls; cbn [expand_loop].
  - destruct (Z.leb_spec len d) as [Hle|Hgt]; cbn zeta.
    + rewrite decide_False by (cbn; lia).
      rewrite app_nil_r. unfold py_len. cbn.
      rewrite Z.add_0_r, Nat.add_0_r. reflexivity.
    + replace (Z.to_nat (d + 1 - len)) with O by lia.
      rewrite decide_True by (cbn; lia). cbn.
      rewrite app_nil_r, Z.add_0_r, Nat.add_0_r. reflexivity.
  - destruct (Z.leb_spec len d) as [Hle|Hgt]; cbn zeta.
    + rewrite IH. cbn zeta.
      replace (Z.to_nat (d + 1 - len)) with (S (Z.to_nat (d + 1 - (len + 1))))
        by lia.
      set (need := Z.to_nat (d + 1 - (len + 1))).
      destruct (decide (need <= length it)%nat) as [Hn|Hn].
      * rewrite decide_True by (cbn; lia). cbn [take drop].
        rewrite <- app_assoc. cbn [app].
        f_equal. f_equal; lia.
      * rewrite decide_False by (cbn; lia).
        rewrite <- app_assoc. cbn [app].
        f_equal. unfold py_len. cbn [length]. f_equal; lia.
    + replace (Z.to_nat (d + 1 - len)) with O by lia.
      rewrite decide_True by (cbn; lia). cbn.
      rewrite app_nil_r, Z.add_0_r, Nat.add_0_r. reflexivity.
Qed.

End Expansion.

(** ** Reads of a Python list *)

Section ListReads.

Context {T : Type}.
Implicit Types (l xs : list T).

Lemma list_getitem_nonneg l (j : nat) :
  list_getitem l (Z.of_nat j) =
    match l !! j with
    | Some x => Ok x
    | None => Raise IndexError
    end.
Proof.
  unfold list_getitem, py_len.
  destruct (Z.ltb_spec (Z.of_nat j) 0) as [?|_]; [lia|].
  destruct (Z.ltb_spec (Z.of_nat j) 0) as [?|_]; [lia|]. cbn [orb].
  rewrite Nat2Z.id.
  destruct (Z.leb_spec (Z.of_nat (length l)) (Z.of_nat j)) as [Hge|Hlt].
  - rewrite lookup_ge_None_2 by lia. reflexivity.
  - reflexivity.
Qed.

(** A negative index counts from the end of the list that is read. *)
Lemma list_getitem_neg l (i : Z) :
  i < 0 ->
  list_getitem l i =
    if decide (- py_len l <= i) then
      match l !! Z.to_nat (py_len l + i) with
      | Some x => Ok x
      | None => Raise IndexError
      end
    else Raise IndexError.
Proof.
  intros Hi. unfold list_getitem.
  destruct (Z.ltb_spec i 0) as [_|?]; [|lia].
  destruct (decide (- py_len l <= i)) as [Hin|Hout].
  - destruct (Z.ltb_spec (i + py_len l) 0) as [?|_]; [lia|].
    destruct (Z.leb_spec (py_len l) (i + py_len l)) as [?|_]; [lia|].
    cbn [orb]. rewrite (Z.add_comm i). reflexivity.
  - destruct (Z.ltb_spec (i + py_len l) 0) as [_|?]; [|lia]. reflexivity.
Qed.

Lemma slice_collect_unit_step l (a n : nat) :
  (a + n <= length l)%nat ->
  slice_collect l (Z.of_nat a) 1 n = take n (drop a l).
Proof.
  revert a. induction n as [|n IH]; intros a Hlen; cbn [slice_collect].
  - reflexivity.
  - rewrite Nat2Z.id.
    destruct (lookup_lt_is_Some_2 l a ltac:(lia)) as [x Hx].
    rewrite Hx.
    replace (Z.of_nat a + 1) with (Z.of_nat (S a)) by lia.
    rewrite IH by lia.
    rewrite (drop_S l x a Hx). reflexivity.
Qed.

(** [l[a:b]] with [0 <= a <= len(l) <= b] is the tail from [a]. *)
Lemma list_getslice_tail l (a b : Z) :
  0 <= a <= py_len l -> py_len l <= b ->
  list_getslice l (Slice (Some a) (Some b) None) = Ok (drop (Z.to_nat a) l).
Proof.
  unfold py_len. intros Ha Hb. unfold list_getslice. cbn -[Z.div].
  unfold adjust_bound, py_len.
  destruct (Z.ltb_spec a 0) as [?|_]; [lia|].
  destruct (Z.ltb_spec b 0) as [?|_]; [lia|].
  destruct (Z.leb_spec (Z.of_nat (length l)) b) as [_|?]; [|lia].
  destruct (Z.ltb_spec 1 0) as [?|_]; [lia|].
  f_equal.
  destruct (Z.leb_spec (Z.of_nat (length l)) a) as [Hfull|Hpart].
  - unfold slice_length. cbn -[Z.div].
    destruct (Z.ltb_spec (Z.of_nat (length l)) (Z.of_nat (length l))); [lia|].
    cbn. rewrite drop_ge by lia. reflexivity.
  - unfold slice_length.
    destruct (Z.ltb_spec 0 1) as [_|?]; [|lia].
    destruct (Z.ltb_spec a (Z.of_nat (length l))) as [_|?]; [|lia].
    rewrite Z.div_1_r.
    rewrite <- (Z2Nat.id a) at 1 by lia.
    rewrite slice_collect_unit_step by lia.
    apply take_ge. rewrite length_drop. lia.
Qed.

End ListReads.

(** ** The methods on the two shapes of a well-formed state *)

Section Shapes.

Context {T : Type}.
Implicit Types (self : LazyList T) (xs : list T).

Lemma wf_state_at xs n calls : wf (state_at xs n calls) <-> (n <= length xs)%nat.
Proof.
  unfold wf, state_at, py_len. cbn. rewrite length_take. lia.
Qed.

Lemma wf_exhausted xs calls : wf (exhausted xs calls).
Proof. reflexivity. Qed.

Lemma logical_state_at xs n calls : logical (state_at xs n calls) = xs.
Proof. unfold logical, pending. cbn. apply take_drop. Qed.

Lemma logical_exhausted xs calls : logical (exhausted xs calls) = xs.
Proof. unfold logical, pending. cbn. apply app_nil_r. Qed.

(** Every well-formed state has one of the two shapes. *)
Lemma wf_shape self :
  wf self ->
  match _iterator self with
  | Some _ =>
      self = state_at (logical self) (length (_expanded self)) (next_calls self)
  | None => self = exhausted (logical self) (next_calls self)
  end.
Proof.
  destruct self as [e [it|] len c]; unfold wf, logical, pending; cbn;
    intros ->.
  - unfold state_at. rewrite take_app_length, drop_app_length. reflexivity.
  - unfold exhausted. rewrite app_nil_r. reflexivity.
Qed.

Lemma wf_cases self :
  wf self ->
  (exists xs n calls, (n <= length xs)%nat /\ self = state_at xs n calls)
  \/ (exists xs calls, self = exhausted xs calls).
Proof.
  intros Hwf. pose proof (wf_shape self Hwf) as Hshape.
  destruct (_iterator self) as [it|] eqn:Hit.
  - left. exists (logical self), (length (_expanded self)), (next_calls self).
    split; [|exact Hshape].
    unfold logical. rewrite length_app. lia.
  - right. exists (logical self), (next_calls self). exact Hshape.
Qed.

Lemma init_state_at xs : __init__ xs = state_at xs 0 0.
Proof. unfold __init__, state_at. rewrite take_0, drop_0. reflexivity. Qed.

Lemma expand_to_index_state_at xs n calls d :
  (n <= length xs)%nat ->
  expand_to_index d (state_at xs n calls) =
    let m := (n `max` Z.to_nat (d + 1))%nat in
    if decide (m <= length xs)%nat then
      (state_at xs m (calls + (m - n)), Ok tt)
    else
      (exhausted xs (S (calls + (length xs - n))), Raise StopIteration).
Proof.
  intros Hn. unfold expand_to_index. cbn [state_at _iterator _expanded
    _expanded_len next_calls].
  rewrite expand_loop_spec. cbn zeta.
  set (need := Z.to_nat (d + 1 - Z.of_nat n)).
  replace (n `max` Z.to_nat (d + 1))%nat with (n + need)%nat by lia.
  rewrite length_drop.
  destruct (decide (need <= length xs - n)%nat) as [Hle|Hgt].
  - rewrite decide_True by lia.
    rewrite take_take_drop, drop_drop. unfold state_at.
    f_equal. f_equal; lia.
  - rewrite decide_False by lia.
    rewrite take_drop. unfold exhausted, py_len. rewrite length_drop.
    f_equal. f_equal; lia.
Qed.

Lemma get_index_state_at xs n calls (j : nat) :
  (n <= length xs)%nat ->
  _get (Index (Z.of_nat j)) (state_at xs n calls) =
    match xs !! j with
    | Some x =>
        (state_at xs (n `max` S j) (calls + (n `max` S j - n)), Ok (Item x))
    | None =>
        (exhausted xs (S (calls + (length xs - n))), Raise StopIteration)
    end.
Proof.
  intros Hn. unfold _get, bind. cbn [state_at _iterator].
  fold (state_at xs n calls).
  rewrite expand_to_index_state_at by done. cbn zeta.
  replace (Z.to_nat (Z.of_nat j + 1)) with (S j) by lia.
  destruct (xs !! j) as [x|] eqn:Hx.
  - apply lookup_lt_Some in Hx as Hj.
    rewrite decide_True by lia.
    cbn [list_subscript state_at _expanded].
    rewrite list_getitem_nonneg, lookup_take_lt by lia.
    rewrite Hx. reflexivity.
  - apply lookup_ge_None in Hx.
    rewrite decide_False by lia. reflexivity.
Qed.

Lemma get_index_exhausted xs calls (j : nat) :
  _get (Index (Z.of_nat j)) (exhausted xs calls) =
    (exhausted xs calls,
     match xs !! j with
     | Some x => Ok (Item x)
     | None => Raise IndexError
     end).
Proof.
  unfold _get, bind. cbn. rewrite list_getitem_nonneg.
  destruct (xs !! j); reflexivity.
Qed.

Lemma getitem_index_state_at xs n calls (j : nat) :
  (n <= length xs)%nat ->
  __getitem__ (Index (Z.of_nat j)) (state_at xs n calls) =
    match xs !! j with
    | Some x =>
        (state_at xs (n `max` S j) (calls + (n `max` S j - n)), Ok (Item x))
    | None =>
        (exhausted xs (S (calls + (length xs - n))), Raise IndexError)
    end.
Proof.
  intros Hn. unfold __getitem__, try_except.
  rewrite get_index_state_at by done.
  destruct (xs !! j); reflexivity.
Qed.

Lemma getitem_index_exhausted xs calls (j : nat) :
  __getitem__ (Index (Z.of_nat j)) (exhausted xs calls) =
    (exhausted xs calls,
     match xs !! j with
     | Some x => Ok (Item x)
     | None => Raise IndexError
     end).
Proof.
  unfold __getitem__, try_except. rewrite get_index_exhausted.
  destruct (xs !! j); reflexivity.
Qed.

(** One round of the generator; under the legacy protocol
    [escape Legacy StopIteration] is [StopIteration]. *)
Lemma gen_next_state_at p xs n calls (j : nat) :
  (n <= length xs)%nat ->
  gen_next p (gen_at j) (state_at xs n calls) =
    match xs !! j with
    | Some x =>
        (state_at xs (n `max` S j) (calls + (n `max` S j - n)),
         gen_at (S j), Ok (Item x))
    | None =>
        (exhausted xs (S (calls + (length xs - n))), Finished,
         Raise (escape p StopIteration))
    end.
Proof.
  intros Hn.
  assert (gen_next p (gen_at j) (state_at xs n calls)
          = iterate_round p (Z.of_nat j) (state_at xs n calls)) as ->.
  { destruct j as [|j]; cbn [gen_at gen_next]; [reflexivity|].
    f_equal. lia. }
  unfold iterate_round. rewrite get_index_state_at by done.
  destruct (xs !! j); reflexivity.
Qed.

Lemma gen_next_exhausted p xs calls (j : nat) :
  gen_next p (gen_at j) (exhausted xs calls) =
    match xs !! j with
    | Some x => (exhausted xs calls, gen_at (S j), Ok (Item x))
    | None =>
        (exhausted xs calls, Finished, Raise (escape p StopIteration))
    end.
Proof.
  assert (gen_next p (gen_at j) (exhausted xs calls)
          = iterate_round p (Z.of_nat j) (exhausted xs calls)) as ->.
  { destruct j as [|j]; cbn [gen_at gen_next]; [reflexivity|].
    f_equal. lia. }
  unfold iterate_round. rewrite get_index_exhausted.
  destruct (xs !! j); reflexivity.
Qed.

End Shapes.

(** ** Iteration *)

Section Iteration.

Context {T : Type}.
Implicit Types (self : LazyList T) (xs : list T).

Lemma collect_exhausted xs calls (j fuel : nat) :
  (j <= length xs)%nat -> (length xs - j < fuel)%nat ->
  collect Legacy fuel (gen_at j) (exhausted xs calls) =
    Some (exhausted xs calls, Ok (Item <$> drop j xs)).
Proof.
  revert j. induction fuel as [|fuel IH]; intros j Hj Hfuel; [lia|].
  cbn [collect]. rewrite gen_next_exhausted.
  destruct (xs !! j) as [x|] eqn:Hx.
  - apply lookup_lt_Some in Hx as Hlt.
    rewrite IH by lia. rewrite (drop_S xs x j Hx). reflexivity.
  - apply lookup_ge_None in Hx. rewrite drop_ge by lia. reflexivity.
Qed.

Lemma collect_state_at xs n calls (j fuel : nat) :
  (n <= length xs)%nat -> (j <= length xs)%nat ->
  (length xs - j < fuel)%nat ->
  collect Legacy fuel (gen_at j) (state_at xs n calls) =
    Some (exhausted xs (S (calls + (length xs - n))),
          Ok (Item <$> drop j xs)).
Proof.
  revert j n calls.
  induction fuel as [|fuel IH]; intros j n calls Hn Hj Hfuel; [lia|].
  cbn [collect]. rewrite gen_next_state_at by done.
  destruct (xs !! j) as [x|] eqn:Hx.
  - apply lookup_lt_Some in Hx as Hlt.
    rewrite IH by lia. rewrite (drop_S xs x j Hx).
    do 3 f_equal. unfold exhausted. f_equal. lia.
  - apply lookup_ge_None in Hx. rewrite drop_ge by lia. reflexivity.
Qed.

(** X16.  Under the generator protocol of Python 2 and of Python 3 up
    to 3.6, a cursor obtained from [__iter__] yields every element of
    the logical sequence in pull order and then ends: the consumer's
    loop finishes with the collected elements and sees no error.
    Afterwards everything is cached and the iterator is dropped. *)
Theorem iterate_yields_all_then_ends self (fuel : nat) :
  wf self ->
  (length (logical self) < fuel)%nat ->
  exists self',
    collect Legacy fuel Created self
      = Some (self', Ok (Item <$> logical self))
    /\ _expanded self' = logical self
    /\ _iterator self' = None
    /\ gen_next Legacy (gen_at (length (logical self))) self'
       = (self', Finished, Raise StopIteration).
Proof.
  intros Hwf Hfuel.
  assert (Hend : forall xs c,
    gen_next Legacy (gen_at (length xs)) (exhausted xs c)
    = (exhausted xs c, Finished, Raise StopIteration)).
  { intros xs c. rewrite gen_next_exhausted.
    rewrite lookup_ge_None_2 by lia. reflexivity. }
  destruct (wf_cases self Hwf) as [(xs & n & c & Hn & ->)|(xs & c & ->)].
  - rewrite logical_state_at in *.
    exists (exhausted xs (S (c + (length xs - n)))).
    change Created with (gen_at 0).
    rewrite collect_state_at, drop_0 by lia. auto.
  - rewrite logical_exhausted in *.
    exists (exhausted xs c).
    change Created with (gen_at 0).
    rewrite collect_exhausted, drop_0 by lia. auto.
Qed.

End Iteration.

Lemma iterate_yields_all_then_ends_witness :
  wf (__init__ (range 10))
  /\ (length (logical (__init__ (range 10))) < 11)%nat
  /\ exists il,
       collect Legacy 11 Created (__init__ (range 10))
         = Some (il, Ok (Item <$> logical (__init__ (range 10))))
       /\ _expanded il = logical (__init__ (range 10))
       /\ _iterator il = None
       /\ gen_next Legacy (gen_at (length (logical (__init__ (range 10))))) il
          = (il, Finished, Raise StopIteration).
Proof.
  split; [reflexivity|]. split; [vm_compute; lia|].
  apply (iterate_yields_all_then_ends (__init__ (range 10)) 11).
  - reflexivity.
  - vm_compute. lia.
Defined.

(** Under the protocol of Python 3.7 and later the same generator ends
    with [RuntimeError]: the [StopIteration] that leaves its body is
    replaced. *)
Remark pep479_iteration_ends_in_error :
  collect PEP479 1 Created (__init__ (@nil Z))
  = Some (exhausted [] 1, Raise RuntimeError).
Proof. reflexivity. Qed.

(** C1: the code departs from the claim under the generator protocol of
    Python 3.7 and later.  For [il = LazyList(range(10))] the cursor
    yields the ten elements in order, but the next [next] surfaces
    [RuntimeError] to the consumer instead of ending the sequence, so
    [list(il)], the example of the docstring of [__iter__], raises.  A
    second cursor on the exhausted adapter, which ends through
    [except IndexError: raise StopIteration], raises as well. *)
Lemma iterate_ends_in_runtime_error :
  (interleave PEP479 (replicate 11 true) Created Created
     (__init__ (range 10))).2.1
    = ((fun x => Ok (Item x)) <$> range 10) ++ [Raise RuntimeError]
  /\ collect PEP479 11 Created (__init__ (range 10))
     = Some (exhausted (range 10) 11, Raise RuntimeError)
  /\ collect PEP479 11 Created (exhausted (range 10) 11)
     = Some (exhausted (range 10) 11, Raise RuntimeError)
  /\ collect Legacy 11 Created (__init__ (range 10))
     = Some (exhausted (range 10) 11, Ok (Item <$> range 10)).
Proof. repeat split; vm_compute; reflexivity. Qed.


(** ** Negative indices *)

Section NegativeIndex.

Context {T : Type}.
Implicit Types (self : LazyList T) (xs : list T).

(** A negative index never enters the expansion loop: the state is left
    as it is and the cache is read as a Python list. *)
Lemma getitem_negative_reads_cache self (i : Z) :
  wf self -> i < 0 ->
  __getitem__ (Index i) self =
    (self, match list_getitem (_expanded self) i with
           | Ok x => Ok (Item x)
           | Raise e => Raise e
           end).
Proof.
  intros Hwf Hi.
  assert (Hget : _get (Index i) self
                 = (self, list_subscript (_expanded self) (Index i))).
  { destruct (wf_cases self Hwf) as [(xs & n & c & Hn & ->)|(xs & c & ->)].
    - unfold _get, bind. cbn [state_at _iterator].
      fold (state_at xs n c). rewrite expand_to_index_state_at by done.
      cbn zeta. replace (n `max` Z.to_nat (i + 1))%nat with n by lia.
      rewrite decide_True by lia.
      replace (c + (n - n))%nat with c by lia. reflexivity.
    - reflexivity. }
  unfold __getitem__, try_except. rewrite Hget. cbn [list_subscript].
  rewrite list_getitem_neg by done.
  destruct (decide (- py_len (_expanded self) <= i)); [|reflexivity].
  destruct (_expanded self !! _); reflexivity.
Qed.

(** X17.  A negative index [i] pulls nothing and is resolved
    against the cache as it is at that moment, [c] elements long: the
    element at position [c + i] when [-c <= i], [IndexError] below
    that.  It is the element [N + i] of the full sequence once all [N]
    elements are cached. *)
Theorem getitem_negative_index self (i : Z) :
  wf self -> i < 0 ->
  let c := py_len (_expanded self) in
  (__getitem__ (Index i) self).1 = self
  /\ (- c <= i ->
      exists x, _expanded self !! Z.to_nat (c + i) = Some x
                /\ (__getitem__ (Index i) self).2 = Ok (Item x))
  /\ (i < - c -> (__getitem__ (Index i) self).2 = Raise IndexError)
  /\ (_expanded self = logical self -> - c <= i ->
      exists x, logical self !! Z.to_nat (py_len (logical self) + i) = Some x
                /\ (__getitem__ (Index i) self).2 = Ok (Item x)).
Proof.
  intros Hwf Hi c.
  rewrite getitem_negative_reads_cache by done. cbn [fst snd].
  rewrite list_getitem_neg by done. fold c.
  assert (Hin : - c <= i ->
    exists x, _expanded self !! Z.to_nat (c + i) = Some x
              /\ match (if decide (- c <= i) then
                          match _expanded self !! Z.to_nat (c + i) with
                          | Some x => Ok x
                          | None => Raise IndexError
                          end
                        else Raise IndexError) with
                 | Ok x => Ok (Item x)
                 | Raise e => Raise e
                 end = Ok (Item x)).
  { intros Hc. rewrite decide_True by done.
    destruct (lookup_lt_is_Some_2 (_expanded self) (Z.to_nat (c + i)))
      as [x Hx]; [unfold c, py_len in *; lia|].
    exists x. rewrite Hx. auto. }
  split; [reflexivity|]. split; [exact Hin|]. split.
  - intros Hc. rewrite decide_False by lia. reflexivity.
  - intros Hfull Hc. subst c. rewrite <- Hfull. exact (Hin Hc).
Qed.

End NegativeIndex.

Lemma getitem_negative_index_witness :
  let self := (__getitem__ (Index 1) (__init__ [10; 20; 30])).1 in
  wf self /\ -1 < 0
  /\ (__getitem__ (Index (-1)) self).1 = self
  /\ (__getitem__ (Index (-1)) self).2 = Ok (Item 20).
Proof.
  set (self := (__getitem__ (Index 1) (__init__ [10; 20; 30])).1).
  assert (Hwf : wf self) by reflexivity.
  assert (Hneg : -1 < 0) by lia.
  destruct (getitem_negative_index self (-1) Hwf Hneg) as (H1 & H2 & _).
  split; [exact Hwf|]. split; [exact Hneg|]. split; [exact H1|].
  destruct H2 as (x & Hx & ->); [vm_compute; discriminate|].
  vm_compute in Hx. congruence.
Defined.

(** C2: the code departs from the claim.  On a new adapter over three
    elements [il[-1]] raises [IndexError] and pulls nothing, and after
    [il[0]] it is the first element, not the last: the expansion loop
    never runs for a negative index, and the cache is read as it is.
    The sibling path for an open slice does drain the source first:
    [il[-1:]] is the list of the last element, and [il[-1]] is the last
    element once the source is drained. *)
Lemma negative_index_reads_partial_cache :
  __getitem__ (Index (-1)) (__init__ [10; 20; 30])
    = (__init__ [10; 20; 30], Raise IndexError)
  /\ (let (il, _) := __getitem__ (Index 0) (__init__ [10; 20; 30]) in
      (__getitem__ (Index (-1)) il).2 = Ok (Item 10))
  /\ __getitem__ (Sliced (Slice (Some (-1)) None None))
       (__init__ [10; 20; 30])
     = (exhausted [10; 20; 30] 4, Ok (Items [30]))
  /\ __getitem__ (Index (-1)) (exhausted [10; 20; 30] 4)
     = (exhausted [10; 20; 30] 4, Ok (Item 30))
  /\ ~ (forall (xs : list Z) (i : Z) (x : Z),
          - py_len xs <= i <= -1 ->
          xs !! Z.to_nat (py_len xs + i) = Some x ->
          (__getitem__ (Index i) (__init__ xs)).2 = Ok (Item x)).
Proof.
  split; [reflexivity|]. split; [reflexivity|].
  split; [vm_compute; reflexivity|]. split; [reflexivity|].
  intros H. specialize (H [10; 20; 30] (-1) 30).
  cbv in H. discriminate H; [split; discriminate | reflexivity].
Qed.

(** ** Slices *)

Section Slices.

Context {T : Type}.
Implicit Types (self : LazyList T) (xs : list T).

(** The bound the expansion is asked for: the stop value unless it is
    absent or zero. *)
Lemma stop_or_maxsize_spec (desired_slice : slice) :
  stop_or_maxsize desired_slice =
    match stop desired_slice with
    | Some v => if decide (v = 0) then sys_maxsize else v
    | None => sys_maxsize
    end.
Proof.
  unfold stop_or_maxsize. destruct (stop desired_slice) as [v|]; [|done].
  destruct (Z.eqb_spec v 0), (decide (v = 0)); done.
Qed.

(** While the iterator is held, [expand_to_slice] never raises. *)
Lemma expand_to_slice_state_at xs n calls (desired_slice : slice) :
  (n <= length xs)%nat ->
  expand_to_slice desired_slice (state_at xs n calls) =
    let m := (n `max` Z.to_nat (stop_or_maxsize desired_slice + 1))%nat in
    if decide (m <= length xs)%nat then
      (state_at xs m (calls + (m - n)), Ok tt)
    else
      (exhausted xs (S (calls + (length xs - n))), Ok tt).
Proof.
  intros Hn. unfold expand_to_slice, try_except.
  rewrite expand_to_index_state_at by done. cbn zeta.
  destruct (decide _); reflexivity.
Qed.

(** Once the iterator is dropped a direct call goes through the
    unguarded [next(None)]. *)
Lemma expand_to_slice_exhausted xs calls (desired_slice : slice) :
  expand_to_slice desired_slice (exhausted xs calls) =
    (exhausted xs calls,
     if decide (py_len xs <= stop_or_maxsize desired_slice)
     then Raise TypeError else Ok tt).
Proof.
  unfold expand_to_slice, try_except, expand_to_index. cbn.
  destruct (Z.leb_spec (py_len xs) (stop_or_maxsize desired_slice)),
    (decide (py_len xs <= stop_or_maxsize desired_slice)); done || lia.
Qed.

Lemma getitem_slice_beyond_end self (a b : Z) :
  wf self ->
  0 <= a <= py_len (logical self) -> py_len (logical self) < b ->
  exists self',
    __getitem__ (Sliced (Slice (Some a) (Some b) None)) self
      = (self', Ok (Items (drop (Z.to_nat a) (logical self))))
    /\ _expanded self' = logical self
    /\ _iterator self' = None.
Proof.
  intros Hwf Ha Hb.
  destruct (wf_cases self Hwf) as [(xs & n & c & Hn & ->)|(xs & c & ->)].
  - rewrite logical_state_at in *. unfold py_len in *.
    exists (exhausted xs (S (c + (length xs - n)))).
    split; [|done].
    unfold __getitem__, try_except, _get, bind. cbn [state_at _iterator].
    fold (state_at xs n c). rewrite expand_to_slice_state_at by done.
    cbn zeta. rewrite stop_or_maxsize_spec. cbn [stop].
    rewrite (decide_False (P := b = 0)) by lia.
    rewrite decide_False by lia.
    cbn [list_subscript exhausted _expanded].
    rewrite list_getslice_tail by (unfold py_len; lia). reflexivity.
  - rewrite logical_exhausted in *. exists (exhausted xs c).
    split; [|done].
    unfold __getitem__, try_except, _get, bind.
    cbn [exhausted _iterator list_subscript _expanded].
    rewrite list_getslice_tail by lia. reflexivity.
Qed.

(** C5.  Index access raises, slice access truncates: on a sequence of
    [N] elements [il[N]] fails with [IndexError], while [il[a:b]] with
    [0 <= a <= N < b] is the list of the elements at [a .. N-1] and
    raises nothing. *)
Theorem index_raises_slice_truncates self (a b : Z) :
  wf self ->
  0 <= a <= py_len (logical self) -> py_len (logical self) < b ->
  (__getitem__ (Index (py_len (logical self))) self).2 = Raise IndexError
  /\ (__getitem__ (Sliced (Slice (Some a) (Some b) None)) self).2
     = Ok (Items (drop (Z.to_nat a) (logical self))).
Proof.
  intros Hwf Ha Hb. split.
  - unfold py_len.
    destruct (wf_cases self Hwf) as [(xs & n & c & Hn & ->)|(xs & c & ->)].
    + rewrite logical_state_at, getitem_index_state_at by done.
      rewrite lookup_ge_None_2 by lia. reflexivity.
    + rewrite logical_exhausted, getitem_index_exhausted.
      rewrite lookup_ge_None_2 by lia. reflexivity.
  - destruct (getitem_slice_beyond_end self a b Hwf Ha Hb) as (s' & -> & _).
    reflexivity.
Qed.

End Slices.

Lemma index_raises_slice_truncates_witness :
  wf (__init__ (range 10))
  /\ 0 <= 7 <= py_len (logical (__init__ (range 10)))
  /\ py_len (logical (__init__ (range 10))) < 15
  /\ (__getitem__ (Index 10) (__init__ (range 10))).2 = Raise IndexError
  /\ (__getitem__ (Sliced (Slice (Some 7) (Some 15) None))
        (__init__ (range 10))).2 = Ok (Items [7; 8; 9]).
Proof.
  assert (Hwf : wf (__init__ (range 10))) by reflexivity.
  assert (Ha : 0 <= 7 <= py_len (logical (__init__ (range 10))))
    by (vm_compute; split; discriminate).
  assert (Hb : py_len (logical (__init__ (range 10))) < 15) by reflexivity.
  split; [exact Hwf|]. split; [exact Ha|]. split; [exact Hb|].
  exact (index_raises_slice_truncates (__init__ (range 10)) 7 15 Hwf Ha Hb).
Defined.

(** C3: the code departs from the claim at [stop = 0].  [0 or
    sys.maxsize] is [sys.maxsize], so [il[0:0]] and [il[:0]] drain the
    source, where the bound [0] would pull one element. *)
Lemma expand_to_slice_stop_zero_drains :
  stop_or_maxsize (Slice (Some 0) (Some 0) None) = sys_maxsize
  /\ expand_to_slice (Slice (Some 0) (Some 0) None) (__init__ (range 10))
     = (exhausted (range 10) 11, Ok tt)
  /\ expand_to_index 0 (__init__ (range 10))
     = (state_at (range 10) 1 1, Ok tt)
  /\ __getitem__ (Sliced (Slice None (Some 0) None)) (__init__ (range 10))
     = (exhausted (range 10) 11, Ok (Items [])).
Proof. repeat split; vm_compute; reflexivity. Qed.

(** ** Length *)

Section Length.

Context {T : Type}.
Implicit Types (self : LazyList T) (xs : list T).

(** While the iterator is held, [__len__] drains it and returns the
    number of elements. *)
Lemma len_state_at xs n calls :
  (n <= length xs)%nat -> py_len xs <= sys_maxsize ->
  __len__ (state_at xs n calls) =
    (exhausted xs (S (calls + (length xs - n))), Ok (py_len xs)).
Proof.
  unfold py_len. intros Hn Hmax. unfold __len__, bind, try_except.
  rewrite expand_to_index_state_at by done. cbn zeta.
  rewrite decide_False by lia. reflexivity.
Qed.

(** Once the iterator is dropped, [__len__] reaches [next(None)]: the
    loop condition still holds and nothing guards the call. *)
Lemma len_exhausted xs calls :
  py_len xs <= sys_maxsize ->
  __len__ (exhausted xs calls) = (exhausted xs calls, Raise TypeError).
Proof.
  intros Hmax. unfold __len__, bind, try_except, expand_to_index. cbn.
  destruct (Z.leb_spec (py_len xs) sys_maxsize); [reflexivity|lia].
Qed.

End Length.

(** C6: the code departs from the claim on a repeated call.  The first
    [len(il)] returns 10 and leaves the ten elements cached in order;
    the second one raises [TypeError].  So does a [len(il)] that follows
    a complete iteration. *)
Lemma len_second_call_raises :
  (let (il, r) := __len__ (__init__ (range 10)) in
   r = Ok 10 /\ il = exhausted (range 10) 11
   /\ __len__ il = (il, Raise TypeError))
  /\ (exists il, collect Legacy 11 Created (__init__ (range 10))
                 = Some (il, Ok (Item <$> range 10))
                 /\ __len__ il = (il, Raise TypeError)).
Proof.
  split.
  - vm_compute. repeat split; reflexivity.
  - exists (exhausted (range 10) 11). split; vm_compute; reflexivity.
Qed.

(** ** Truthiness *)

Section Truthiness.

Context {T : Type}.
Implicit Types (self : LazyList T) (xs : list T).

(** X18.  Under the generator protocol of Python 2 and of Python 3 up
    to 3.6, [bool(il)] is [True] exactly when the logical sequence has
    an element; on an empty source it is the plain value [False], not an
    error.  It calls [next] on the source at most once and leaves at most
    one element in a cache that was empty. *)
Theorem bool_iff_nonempty_one_pull self :
  wf self ->
  exists self' (b : bool),
    __bool__ Legacy self = (self', Ok b)
    /\ (b = true <-> logical self <> [])
    /\ (next_calls self' <= S (next_calls self))%nat
    /\ (length (_expanded self') <= 1 `max` length (_expanded self))%nat
    /\ logical self' = logical self.
Proof.
  intros Hwf. unfold __bool__. change Created with (gen_at 0).
  destruct (wf_cases self Hwf) as [(xs & n & c & Hn & ->)|(xs & c & ->)].
  - rewrite gen_next_state_at, logical_state_at by done.
    destruct xs as [|x xs]; cbn [lookup list_lookup].
    + exists (exhausted [] (S (c + (0 - n)))), false.
      rewrite logical_exhausted. cbn. repeat split; try done; lia.
    + exists (state_at (x :: xs) (n `max` 1) (c + (n `max` 1 - n))), true.
      rewrite logical_state_at.
      cbn [state_at _expanded next_calls]. rewrite !length_take.
      cbn [length] in *. repeat split; try done; lia.
  - rewrite gen_next_exhausted, logical_exhausted.
    destruct xs as [|x xs]; cbn [lookup list_lookup].
    + exists (exhausted [] c), false.
      rewrite logical_exhausted. cbn. repeat split; try done; lia.
    + exists (exhausted (x :: xs) c), true.
      rewrite logical_exhausted. cbn. repeat split; try done; lia.
Qed.

End Truthiness.

Lemma bool_iff_nonempty_one_pull_witness :
  wf (__init__ (range 10))
  /\ exists il (b : bool),
       __bool__ Legacy (__init__ (range 10)) = (il, Ok b)
       /\ (b = true <-> logical (__init__ (range 10)) <> [])
       /\ (next_calls il <= S (next_calls (__init__ (range 10))))%nat
       /\ (length (_expanded il)
           <= 1 `max` length (_expanded (__init__ (range 10))))%nat
       /\ logical il = logical (__init__ (range 10)).
Proof.
  split; [reflexivity|].
  apply (bool_iff_nonempty_one_pull (__init__ (range 10))). reflexivity.
Defined.

(** C7: the code departs from the claim under the generator protocol of
    Python 3.7 and later.  [bool(LazyList(range(0)))], the example of the
    docstring of [__bool__], raises [RuntimeError] instead of returning
    [False], after its single call on the source; so does [bool] on an
    empty adapter whose iterator is already dropped.  On a non-empty
    source it returns [True] after one call, with one element cached. *)
Lemma bool_empty_raises_runtime_error :
  __bool__ PEP479 (__init__ (range 0)) = (exhausted [] 1, Raise RuntimeError)
  /\ __bool__ PEP479 (exhausted (range 0) 1)
     = (exhausted [] 1, Raise RuntimeError)
  /\ __bool__ PEP479 (__init__ (range 10)) = (state_at (range 10) 1 1, Ok true)
  /\ __bool__ Legacy (__init__ (range 0)) = (exhausted [] 1, Ok false).
Proof. repeat split; vm_compute; reflexivity. Qed.

(** ** A failed index access keeps what it pulled *)

Section FailedAccess.

Context {T : Type}.
Implicit Types (self : LazyList T) (xs : list T).

(** C10.  When [il[k]] fails because the sequence has only [N <= k]
    elements, nothing is rolled back: all [N] elements are in the cache,
    the iterator is dropped in that same call, and every later [il[j]]
    with [j < N] is answered from the cache, the state (and so the number
    of calls on the source) staying as it is. *)
Theorem failed_index_keeps_progress self (k : nat) :
  wf self ->
  (length (logical self) <= k)%nat ->
  exists self',
    __getitem__ (Index (Z.of_nat k)) self = (self', Raise IndexError)
    /\ _expanded self' = logical self
    /\ _iterator self' = None
    /\ (next_calls self' <= S (next_calls self + length (pending self)))%nat
    /\ forall (j : nat) x,
         logical self !! j = Some x ->
         __getitem__ (Index (Z.of_nat j)) self' = (self', Ok (Item x)).
Proof.
  intros Hwf Hk.
  destruct (wf_cases self Hwf) as [(xs & n & c & Hn & ->)|(xs & c & ->)].
  - rewrite logical_state_at in *.
    exists (exhausted xs (S (c + (length xs - n)))).
    rewrite getitem_index_state_at by done.
    rewrite lookup_ge_None_2 by lia.
    change (pending (state_at xs n c)) with (drop n xs).
    rewrite length_drop. cbn [state_at next_calls exhausted _expanded
      _iterator].
    split; [reflexivity|]. split; [reflexivity|]. split; [reflexivity|].
    split; [lia|].
    intros j x Hj. fold (exhausted xs (S (c + (length xs - n)))).
    rewrite getitem_index_exhausted, Hj. reflexivity.
  - rewrite logical_exhausted in *. exists (exhausted xs c).
    rewrite getitem_index_exhausted.
    rewrite lookup_ge_None_2 by lia.
    split; [reflexivity|]. split; [reflexivity|]. split; [reflexivity|].
    split; [cbn; lia|].
    intros j x Hj. rewrite getitem_index_exhausted, Hj. reflexivity.
Qed.

End FailedAccess.

Lemma failed_index_keeps_progress_witness :
  wf (__init__ [10; 20; 30])
  /\ (length (logical (__init__ [10; 20; 30])) <= 7)%nat
  /\ exists il,
       __getitem__ (Index 7) (__init__ [10; 20; 30]) = (il, Raise IndexError)
       /\ _expanded il = [10; 20; 30]
       /\ _iterator il = None
       /\ (next_calls il <= 4)%nat
       /\ forall (j : nat) x,
            [10; 20; 30] !! j = Some x ->
            __getitem__ (Index (Z.of_nat j)) il = (il, Ok (Item x)).
Proof.
  assert (Hwf : wf (__init__ [10; 20; 30])) by reflexivity.
  assert (Hk : (length (logical (__init__ [10; 20; 30])) <= 7)%nat)
    by (vm_compute; lia).
  split; [exact Hwf|]. split; [exact Hk|].
  exact (failed_index_keeps_progress (__init__ [10; 20; 30]) 7 Hwf Hk).
Defined.

(** ** Laziness and memoization *)

Section Memoization.

Context {T : Type}.
Implicit Types (self : LazyList T) (xs : list T).

(** A successful index access, repeated at once, returns the same value
    and leaves the state as it is. *)
Lemma getitem_index_memoized self (j : nat) v self1 :
  wf self ->
  __getitem__ (Index (Z.of_nat j)) self = (self1, Ok v) ->
  __getitem__ (Index (Z.of_nat j)) self1 = (self1, Ok v).
Proof.
  intros Hwf.
  destruct (wf_cases self Hwf) as [(xs & n & c & Hn & ->)|(xs & c & ->)].
  - rewrite getitem_index_state_at by done.
    destruct (xs !! j) as [x|] eqn:Hx; [|discriminate].
    apply lookup_lt_Some in Hx as Hlt.
    intros [= <- <-]. rewrite getitem_index_state_at by lia.
    rewrite Hx.
    replace ((n `max` S j) `max` S j)%nat with (n `max` S j)%nat by lia.
    do 2 f_equal. lia.
  - rewrite getitem_index_exhausted. intros [= <- Hv].
    rewrite getitem_index_exhausted, Hv. reflexivity.
Qed.

(** A run of index accesses below [k + 1] never moves the cache past
    [k + 1] elements. *)
Lemma getitems_state_at xs n calls (k : nat) (js : list nat) :
  (n <= length xs)%nat -> (k < length xs)%nat ->
  Forall (fun j => j <= k)%nat js ->
  exists m rs,
    (n <= m <= n `max` S k)%nat
    /\ getitems (Index <$> (Z.of_nat <$> js)) (state_at xs n calls)
       = (state_at xs m (calls + (m - n)), rs)
    /\ Forall2 (fun j r => exists x, xs !! j = Some x /\ r = Ok (Item x))
         js rs.
Proof.
  intros Hn Hk Hjs. revert n calls Hn.
  induction Hjs as [|j js Hj _ IH]; intros n calls Hn.
  - exists n, []. cbn. replace (calls + (n - n))%nat with calls by lia.
    repeat split; [lia..|constructor].
  - cbn [fmap list_fmap getitems].
    rewrite getitem_index_state_at by done.
    destruct (lookup_lt_is_Some_2 xs j ltac:(lia)) as [x Hx]. rewrite Hx.
    destruct (IH (n `max` S j)%nat (calls + (n `max` S j - n))%nat
                ltac:(lia)) as (m & rs & Hm & Hrun & Hrs).
    change (list_fmap Z subscript Index (list_fmap nat Z Z.of_nat js))
      with (Index <$> (Z.of_nat <$> js)).
    rewrite Hrun. exists m, (Ok (Item x) :: rs).
    split; [lia|]. split.
    + do 2 f_equal. lia.
    + constructor; [eauto|done].
Qed.

(** C4.  A new adapter has an empty cache and has not touched the
    source.  On a new adapter [il[k]] with [k < N] returns element [k]
    and leaves exactly [k + 1] elements cached; asking again returns the
    same value without touching the source.  Whatever run of index
    accesses up to [k] is made, the source is called at most [k + 1]
    times. *)
Theorem lazy_and_memoized xs (k : nat) x (js : list nat) :
  xs !! k = Some x ->
  Forall (fun j => j <= k)%nat js ->
  (_expanded (__init__ xs) = [] /\ next_calls (__init__ xs) = O)
  /\ (exists self1,
        __getitem__ (Index (Z.of_nat k)) (__init__ xs) = (self1, Ok (Item x))
        /\ _expanded self1 = take (S k) xs
        /\ length (_expanded self1) = S k
        /\ next_calls self1 = S k
        /\ __getitem__ (Index (Z.of_nat k)) self1 = (self1, Ok (Item x)))
  /\ (exists self' rs,
        getitems (Index <$> (Z.of_nat <$> js)) (__init__ xs) = (self', rs)
        /\ (next_calls self' <= S k)%nat
        /\ (length (_expanded self') <= S k)%nat
        /\ Forall2 (fun j r => exists y, xs !! j = Some y /\ r = Ok (Item y))
             js rs).
Proof.
  intros Hx Hjs. apply lookup_lt_Some in Hx as Hk.
  split; [done|]. rewrite init_state_at. split.
  - exists (state_at xs (S k) (S k)).
    assert (Hget : __getitem__ (Index (Z.of_nat k)) (state_at xs 0 0)
                   = (state_at xs (S k) (S k), Ok (Item x))).
    { rewrite getitem_index_state_at by lia. rewrite Hx. reflexivity. }
    split; [exact Hget|]. split; [reflexivity|].
    split; [cbn; rewrite length_take; lia|]. split; [reflexivity|].
    apply (getitem_index_memoized (state_at xs 0 0)); [|exact Hget].
    apply wf_state_at. lia.
  - destruct (getitems_state_at xs 0 0 k js ltac:(lia) Hk Hjs)
      as (m & rs & Hm & Hrun & Hrs).
    exists (state_at xs m (0 + (m - 0))), rs.
    split; [exact Hrun|]. cbn [state_at next_calls _expanded].
    rewrite length_take. repeat split; [lia..|exact Hrs].
Qed.

End Memoization.

Lemma lazy_and_memoized_witness :
  range 100 !! 42%nat = Some 42
  /\ Forall (fun j => j <= 42)%nat [3; 42; 7; 42]%nat
  /\ exists il rs,
       getitems (Index <$> (Z.of_nat <$> [3; 42; 7; 42]%nat))
         (__init__ (range 100)) = (il, rs)
       /\ (next_calls il <= 43)%nat
       /\ (length (_expanded il) <= 43)%nat.
Proof.
  assert (Hx : range 100 !! 42%nat = Some 42) by reflexivity.
  assert (Hjs : Forall (fun j => j <= 42)%nat [3; 42; 7; 42]%nat)
    by (repeat constructor; lia).
  split; [exact Hx|]. split; [exact Hjs|].
  destruct (lazy_and_memoized (range 100) 42 42 _ Hx Hjs)
    as (_ & _ & il & rs & Hrun & Hcalls & Hlen & _).
  exists il, rs. auto.
Defined.

(** ** Membership *)

Section Membership.

Context {T : Type} `{EqDecision T}.
Implicit Types (self : LazyList T) (xs : list T).

Lemma contains_loop_state_at xs n calls v (k j fuel : nat) :
  (n <= length xs)%nat ->
  xs !! k = Some v ->
  (forall i y, (i < k)%nat -> xs !! i = Some y -> y <> v) ->
  (j <= k)%nat -> (k - j < fuel)%nat ->
  contains_loop Legacy fuel (Item v) (gen_at j) (state_at xs n calls) =
    Some (state_at xs (n `max` S k) (calls + (n `max` S k - n)), Ok true).
Proof.
  intros Hn Hk Hfirst. revert j n calls Hn.
  induction fuel as [|fuel IH]; intros j n calls Hn Hj Hfuel; [lia|].
  apply lookup_lt_Some in Hk as Hlt.
  cbn [contains_loop]. rewrite gen_next_state_at by done.
  destruct (lookup_lt_is_Some_2 xs j ltac:(lia)) as [y Hy]. rewrite Hy.
  destruct (decide (Item y = Item v)) as [[= ->]|Hne].
  - destruct (decide (j = k)) as [->|Hjk]; [reflexivity|].
    exfalso. apply (Hfirst j v); [lia|done|done].
  - assert (j <> k) by (intros ->; rewrite Hk in Hy; congruence).
    rewrite IH by lia. do 2 f_equal.
    replace ((n `max` S j) `max` S k)%nat with (n `max` S k)%nat by lia.
    f_equal. lia.
Qed.

Lemma contains_loop_exhausted xs calls v (k j fuel : nat) :
  xs !! k = Some v ->
  (forall i y, (i < k)%nat -> xs !! i = Some y -> y <> v) ->
  (j <= k)%nat -> (k - j < fuel)%nat ->
  contains_loop Legacy fuel (Item v) (gen_at j) (exhausted xs calls) =
    Some (exhausted xs calls, Ok true).
Proof.
  intros Hk Hfirst. revert j.
  induction fuel as [|fuel IH]; intros j Hj Hfuel; [lia|].
  apply lookup_lt_Some in Hk as Hlt.
  cbn [contains_loop]. rewrite gen_next_exhausted.
  destruct (lookup_lt_is_Some_2 xs j ltac:(lia)) as [y Hy]. rewrite Hy.
  destruct (decide (Item y = Item v)) as [[= ->]|Hne]; [reflexivity|].
  assert (j <> k) by (intros ->; rewrite Hk in Hy; congruence).
  rewrite IH by lia. reflexivity.
Qed.

(** C8.  [v in il] walks the sequence in order, compares each element
    with [v] and answers [True] at the first equal one.  When that one
    sits at index [k], a new adapter ends up with exactly the [k + 1]
    elements [0 .. k] cached, after [k + 1] calls on the source; an
    adapter that already holds [c] elements ends up with
    [max c (k + 1)]. *)
Theorem contains_stops_at_first_match xs v (k fuel : nat) :
  xs !! k = Some v ->
  (forall i y, (i < k)%nat -> xs !! i = Some y -> y <> v) ->
  (k < fuel)%nat ->
  (exists self',
     contains Legacy fuel (Item v) (__init__ xs) = Some (self', Ok true)
     /\ _expanded self' = take (S k) xs
     /\ length (_expanded self') = S k
     /\ next_calls self' = S k)
  /\ (forall c calls, (c <= length xs)%nat ->
      contains Legacy fuel (Item v) (state_at xs c calls)
      = Some (state_at xs (c `max` S k) (calls + (c `max` S k - c)),
              Ok true)).
Proof.
  intros Hk Hfirst Hfuel. apply lookup_lt_Some in Hk as Hlt.
  assert (Hgen : forall c calls, (c <= length xs)%nat ->
    contains Legacy fuel (Item v) (state_at xs c calls)
    = Some (state_at xs (c `max` S k) (calls + (c `max` S k - c)), Ok true)).
  { intros c calls Hc. unfold contains. change Created with (gen_at 0).
    apply contains_loop_state_at; done || lia. }
  split; [|exact Hgen].
  exists (state_at xs (S k) (S k)).
  rewrite init_state_at, Hgen by lia.
  split; [reflexivity|]. split; [reflexivity|].
  split; [cbn; rewrite length_take; lia|reflexivity].
Qed.

End Membership.

Lemma contains_stops_at_first_match_witness :
  range 100 !! 5%nat = Some 5
  /\ (forall i y, (i < 5)%nat -> range 100 !! i = Some y -> y <> 5)
  /\ (5 < 100)%nat
  /\ exists il,
       contains Legacy 100 (Item 5) (__init__ (range 100)) = Some (il, Ok true)
       /\ _expanded il = [0; 1; 2; 3; 4; 5]
       /\ length (_expanded il) = 6%nat
       /\ next_calls il = 6%nat.
Proof.
  assert (Hk : range 100 !! 5%nat = Some 5) by reflexivity.
  assert (Hfirst : forall i y, (i < 5)%nat -> range 100 !! i = Some y -> y <> 5).
  { intros i y Hi Hy. apply lookup_seqZ in Hy. lia. }
  assert (Hfuel : (5 < 100)%nat) by lia.
  split; [exact Hk|]. split; [exact Hfirst|]. split; [exact Hfuel|].
  destruct (contains_stops_at_first_match (range 100) 5 5 100 Hk Hfirst Hfuel)
    as [(il & Hrun & Hcache & Hlen & Hcalls) _].
  exists il. auto.
Defined.

(** ** State invariants *)

Section Invariants.

Context {T : Type} `{EqDecision T}.
Implicit Types (self : LazyList T) (xs : list T).

Lemma extends_refl self : wf self -> extends self self.
Proof. intros Hwf. repeat split; done. Qed.

Lemma extends_trans self1 self2 self3 :
  extends self1 self2 -> extends self2 self3 -> extends self1 self3.
Proof.
  intros (_ & Hp1 & Hn1 & Hl1) (Hwf & Hp2 & Hn2 & Hl2).
  repeat split; [done|by etrans|auto|congruence].
Qed.

Lemma extends_state_at xs n m calls calls' :
  (n <= m <= length xs)%nat ->
  extends (state_at xs n calls) (state_at xs m calls').
Proof.
  intros Hnm. split; [apply wf_state_at; lia|]. split; [|split].
  - cbn. replace n with (n `min` m)%nat by lia.
    rewrite <- take_take. apply prefix_take.
  - discriminate.
  - rewrite !logical_state_at. reflexivity.
Qed.

Lemma extends_state_at_exhausted xs n calls calls' :
  extends (state_at xs n calls) (exhausted xs calls').
Proof.
  split; [apply wf_exhausted|]. split; [apply prefix_take|].
  split; [done|]. rewrite logical_state_at, logical_exhausted. reflexivity.
Qed.

Lemma expand_to_index_extends d self :
  wf self -> extends self (expand_to_index d self).1.
Proof.
  intros Hwf.
  destruct (wf_cases self Hwf) as [(xs & n & c & Hn & ->)|(xs & c & ->)].
  - rewrite expand_to_index_state_at by done. cbn zeta.
    destruct (decide _); cbn [fst].
    + apply extends_state_at. lia.
    + apply extends_state_at_exhausted.
  - unfold expand_to_index. cbn [exhausted _iterator _expanded_len].
    destruct (_ <=? _); apply extends_refl, wf_exhausted.
Qed.

Lemma expand_to_slice_extends desired_slice self :
  wf self -> extends self (expand_to_slice desired_slice self).1.
Proof.
  intros Hwf.
  destruct (wf_cases self Hwf) as [(xs & n & c & Hn & ->)|(xs & c & ->)].
  - rewrite expand_to_slice_state_at by done. cbn zeta.
    destruct (decide _); cbn [fst].
    + apply extends_state_at. lia.
    + apply extends_state_at_exhausted.
  - rewrite expand_to_slice_exhausted. apply extends_refl, wf_exhausted.
Qed.

(** The state [_get] leaves is the one the expansion leaves. *)
Lemma get_state sub self :
  (_get sub self).1 =
    match _iterator self, sub with
    | Some _, Index i => (expand_to_index i self).1
    | Some _, Sliced desired_slice => (expand_to_slice desired_slice self).1
    | None, _ => self
    end.
Proof.
  unfold _get, bind.
  destruct (_iterator self); [|reflexivity].
  destruct sub as [i|desired_slice].
  - destruct (expand_to_index i self) as [self1 [[]|e]]; reflexivity.
  - destruct (expand_to_slice desired_slice self) as [self1 [[]|e]];
      reflexivity.
Qed.

Lemma get_extends sub self : wf self -> extends self (_get sub self).1.
Proof.
  intros Hwf. rewrite get_state.
  destruct (_iterator self); [|by apply extends_refl].
  destruct sub; [by apply expand_to_index_extends|
                 by apply expand_to_slice_extends].
Qed.

Lemma getitem_state sub self : (__getitem__ sub self).1 = (_get sub self).1.
Proof.
  unfold __getitem__, try_except.
  destruct (_get sub self) as [self1 [v|[]]]; reflexivity.
Qed.

Lemma gen_next_extends p g self :
  wf self -> extends self (gen_next p g self).1.1.
Proof.
  intros Hwf.
  assert (Hround : forall index,
    extends self (iterate_round p index self).1.1).
  { intros index. unfold iterate_round.
    pose proof (get_extends (Index index) self Hwf) as Hext.
    destruct (_get (Index index) self) as [self1 [v|[]]]; exact Hext. }
  destruct g; cbn [gen_next]; [apply Hround..|by apply extends_refl].
Qed.

Lemma bool_extends p self : wf self -> extends self (__bool__ p self).1.
Proof.
  intros Hwf. unfold __bool__.
  pose proof (gen_next_extends p Created self Hwf) as Hext.
  destruct (gen_next p Created self) as [[self1 g] [v|[]]]; exact Hext.
Qed.

Lemma len_extends self : wf self -> extends self (__len__ self).1.
Proof.
  intros Hwf. unfold __len__, bind, try_except.
  pose proof (expand_to_index_extends sys_maxsize self Hwf) as Hext.
  destruct (expand_to_index sys_maxsize self) as [self1 [[]|[]]];
    exact Hext.
Qed.

Lemma contains_loop_extends p fuel v g self self' r :
  wf self ->
  contains_loop p fuel v g self = Some (self', r) ->
  extends self self'.
Proof.
  revert g self. induction fuel as [|fuel IH]; intros g self Hwf; [done|].
  cbn [contains_loop].
  pose proof (gen_next_extends p g self Hwf) as Hext.
  destruct (gen_next p g self) as [[self1 g1] [y|e]]; cbn [fst] in Hext.
  - destruct (decide (y = v)).
    + intros [= <- _]. exact Hext.
    + intros Hrun. eapply extends_trans; [exact Hext|].
      eapply IH; [apply Hext|exact Hrun].
  - destruct e; intros [= <- _]; exact Hext.
Qed.

(** The membership loop ends within a number of rounds that the length
    of the sequence bounds, whatever the protocol. *)
Lemma contains_loop_total p v self (j fuel : nat) :
  wf self ->
  (j <= length (logical self))%nat ->
  (length (logical self) - j < fuel)%nat ->
  is_Some (contains_loop p fuel v (gen_at j) self).
Proof.
  revert j self.
  induction fuel as [|fuel IH]; intros j self Hwf Hj Hfuel; [lia|].
  cbn [contains_loop].
  destruct (wf_cases self Hwf) as [(xs & n & c & Hn & ->)|(xs & c & ->)].
  - rewrite logical_state_at in *. rewrite gen_next_state_at by done.
    destruct (xs !! j) as [x|] eqn:Hx.
    + apply lookup_lt_Some in Hx as Hlt.
      destruct (decide (Item x = v)); [done|].
      apply IH; [apply wf_state_at; lia|rewrite logical_state_at; lia..].
    + destruct p; done.
  - rewrite logical_exhausted in *. rewrite gen_next_exhausted.
    destruct (xs !! j) as [x|] eqn:Hx.
    + apply lookup_lt_Some in Hx as Hlt.
      destruct (decide (Item x = v)); [done|].
      apply IH; [apply wf_exhausted|rewrite logical_exhausted; lia..].
    + destruct p; done.
Qed.

(** C9.  A new adapter is well formed, and every public operation
    (index or slice access, a step of a cursor, length, truthiness,
    membership, and the two expansion methods) keeps the counter equal
    to the length of the cache, only appends to the cache, keeps a
    dropped iterator dropped and keeps the logical sequence; each of
    them returns. *)
Theorem operations_preserve_invariants p (o : op) self :
  wf self ->
  (forall xs : list T, wf (__init__ xs))
  /\ (forall fuel self',
        exec p fuel o self = Some self' ->
        _expanded_len self' = py_len (_expanded self')
        /\ _expanded self `prefix_of` _expanded self'
        /\ (_iterator self = None -> _iterator self' = None)
        /\ logical self' = logical self)
  /\ (forall fuel, (length (logical self) < fuel)%nat ->
        is_Some (exec p fuel o self)).
Proof.
  intros Hwf. split; [done|]. split.
  - intros fuel self' Hexec. change (extends self self').
    destruct o; cbn [exec] in Hexec.
    + injection Hexec as <-. rewrite getitem_state. by apply get_extends.
    + injection Hexec as <-. by apply gen_next_extends.
    + injection Hexec as <-. by apply len_extends.
    + injection Hexec as <-. by apply bool_extends.
    + unfold contains in Hexec.
      destruct (contains_loop p fuel v Created self) as [[s r]|] eqn:Hrun;
        [|done].
      injection Hexec as <-. by eapply contains_loop_extends.
    + injection Hexec as <-. by apply expand_to_index_extends.
    + injection Hexec as <-. by apply expand_to_slice_extends.
  - intros fuel Hfuel. destruct o; cbn [exec]; try done.
    unfold contains. change Created with (gen_at 0).
    destruct (contains_loop_total p v self 0 fuel Hwf) as [r ->];
      [lia..|done].
Qed.

End Invariants.

Lemma operations_preserve_invariants_witness :
  wf (__init__ (range 10))
  /\ forall il,
       exec Legacy 11 (OpContains (Item 7)) (__init__ (range 10)) = Some il ->
       _expanded_len il = py_len (_expanded il)
       /\ _expanded (__init__ (range 10)) `prefix_of` _expanded il
       /\ (_iterator (__init__ (range 10)) = None -> _iterator il = None)
       /\ logical il = logical (__init__ (range 10)).
Proof.
  assert (Hwf : wf (__init__ (range 10))) by reflexivity.
  split; [exact Hwf|].
  destruct (operations_preserve_invariants Legacy (OpContains (Item 7))
              (__init__ (range 10)) Hwf) as (_ & Hstep & _).
  exact (Hstep 11%nat).
Defined.

(** ** Index access from any state *)

Section IndexAccess.

Context {T : Type}.
Implicit Types (self : LazyList T) (xs : list T).

(** X1.  From any well-formed state, [il[j]] for [j >= 0] inside the
    sequence returns element [j] of the logical sequence; afterwards the
    cache is the prefix of length [max c (j + 1)] ([c] elements were
    cached before), and the source was called once per element that was
    missing. *)
Theorem getitem_index_in_range self (j : nat) x :
  wf self ->
  logical self !! j = Some x ->
  exists self',
    __getitem__ (Index (Z.of_nat j)) self = (self', Ok (Item x))
    /\ _expanded self'
       = take (length (_expanded self) `max` S j) (logical self)
    /\ next_calls self'
       = (next_calls self + (S j - length (_expanded self)))%nat
    /\ (_iterator self = None -> self' = self).
Proof.
  intros Hwf Hx.
  destruct (wf_cases self Hwf) as [(xs & n & c & Hn & ->)|(xs & c & ->)].
  - rewrite logical_state_at in *. apply lookup_lt_Some in Hx as Hlt.
    rewrite getitem_index_state_at, Hx by done.
    eexists. split; [reflexivity|].
    cbn [state_at _expanded next_calls _iterator]. rewrite length_take.
    split; [f_equal; lia|]. split; [lia|discriminate].
  - rewrite logical_exhausted in *. apply lookup_lt_Some in Hx as Hlt.
    rewrite getitem_index_exhausted, Hx.
    eexists. split; [reflexivity|]. cbn [exhausted _expanded next_calls].
    split; [rewrite take_ge by lia; reflexivity|]. split; [lia|done].
Qed.

(** X2.  [expand_to_index] is idempotent: once it has succeeded for a
    target, a call with the same or a smaller target changes nothing and
    does not touch the source.  This holds in every state. *)
Theorem expand_to_index_idempotent self self1 (d d' : Z) :
  expand_to_index d self = (self1, Ok tt) ->
  d' <= d ->
  expand_to_index d' self1 = (self1, Ok tt).
Proof.
  destruct self as [e [it|] len c]; unfold expand_to_index;
    cbn [_iterator _expanded _expanded_len next_calls].
  - rewrite expand_loop_spec. cbn zeta.
    destruct (decide _) as [Hneed|_]; [|discriminate].
    intros [= <-] Hd. cbn [_iterator _expanded _expanded_len next_calls].
    rewrite expand_loop_spec. cbn zeta.
    replace (Z.to_nat (d' + 1 - (len + Z.of_nat (Z.to_nat (d + 1 - len)))))
      with O by lia.
    rewrite decide_True by lia.
    rewrite take_0, drop_0, app_nil_r, Z.add_0_r, Nat.add_0_r. reflexivity.
  - destruct (Z.leb_spec len d) as [|Hlt]; [discriminate|].
    intros [= <-] Hd. cbn [_iterator _expanded_len].
    destruct (Z.leb_spec len d'); [lia|reflexivity].
Qed.

End IndexAccess.

Lemma getitem_index_in_range_witness :
  let self := (__getitem__ (Index 2) (__init__ (range 10))).1 in
  wf self /\ logical self !! 6%nat = Some 6
  /\ exists il,
       __getitem__ (Index 6) self = (il, Ok (Item 6))
       /\ _expanded il = [0; 1; 2; 3; 4; 5; 6]
       /\ next_calls il = 7%nat.
Proof.
  set (self := (__getitem__ (Index 2) (__init__ (range 10))).1).
  assert (Hwf : wf self) by reflexivity.
  assert (Hx : logical self !! 6%nat = Some 6) by reflexivity.
  split; [exact Hwf|]. split; [exact Hx|].
  destruct (getitem_index_in_range self 6 6 Hwf Hx)
    as (il & Hget & Hcache & Hcalls & _).
  exists il. split; [exact Hget|]. split; [exact Hcache|exact Hcalls].
Defined.

Lemma expand_to_index_idempotent_witness :
  expand_to_index 4 (__init__ (range 10)) = (state_at (range 10) 5 5, Ok tt)
  /\ 3 <= 4
  /\ expand_to_index 3 (state_at (range 10) 5 5)
     = (state_at (range 10) 5 5, Ok tt).
Proof.
  assert (H1 : expand_to_index 4 (__init__ (range 10))
               = (state_at (range 10) 5 5, Ok tt)) by reflexivity.
  assert (H2 : 3 <= 4) by lia.
  split; [exact H1|]. split; [exact H2|].
  exact (expand_to_index_idempotent _ _ 4 3 H1 H2).
Defined.

(** ** Length and iteration, from any state *)

Section Draining.

Context {T : Type}.
Implicit Types (self : LazyList T) (xs : list T).

(** X3.  While the iterator is still held, [len(il)] returns the number
    of elements of the logical sequence, leaves all of them cached in
    order and drops the iterator; it calls the source once per element
    that was not cached yet and once more for the end. *)
Theorem len_drains_while_iterator_held self it :
  wf self ->
  _iterator self = Some it ->
  py_len (logical self) <= sys_maxsize ->
  exists self',
    __len__ self = (self', Ok (py_len (logical self)))
    /\ _expanded self' = logical self
    /\ _iterator self' = None
    /\ next_calls self' = S (next_calls self + length it).
Proof.
  intros Hwf Hit Hmax.
  destruct (wf_cases self Hwf) as [(xs & n & c & Hn & ->)|(xs & c & ->)];
    [|discriminate].
  rewrite logical_state_at in *. injection Hit as <-.
  rewrite len_state_at by done. eexists. split; [reflexivity|].
  cbn. rewrite length_drop. done.
Qed.

(** X4.  Once the iterator has been dropped (by a complete iteration, a
    failed index access, an open slice or an earlier [len]), [len(il)]
    raises [TypeError] and changes nothing. *)
Theorem len_raises_after_exhaustion self :
  wf self ->
  _iterator self = None ->
  py_len (_expanded self) <= sys_maxsize ->
  __len__ self = (self, Raise TypeError).
Proof.
  intros Hwf Hit Hmax.
  destruct (wf_cases self Hwf) as [(xs & n & c & Hn & ->)|(xs & c & ->)];
    [discriminate|].
  apply len_exhausted. exact Hmax.
Qed.

(** X5.  Iterating twice: the second complete iteration returns the same
    elements and is answered from the cache alone, the state (and the
    number of calls on the source) staying as the first one left it. *)
Theorem second_iteration_from_cache self (fuel : nat) :
  wf self ->
  (length (logical self) < fuel)%nat ->
  exists self1,
    collect Legacy fuel Created self
      = Some (self1, Ok (Item <$> logical self))
    /\ collect Legacy fuel Created self1
       = Some (self1, Ok (Item <$> logical self)).
Proof.
  intros Hwf Hfuel. change Created with (gen_at 0).
  destruct (wf_cases self Hwf) as [(xs & n & c & Hn & ->)|(xs & c & ->)].
  - rewrite logical_state_at in *.
    exists (exhausted xs (S (c + (length xs - n)))).
    rewrite collect_state_at, collect_exhausted, drop_0 by lia. done.
  - rewrite logical_exhausted in *. exists (exhausted xs c).
    rewrite collect_exhausted, drop_0 by lia. done.
Qed.

End Draining.

Lemma len_drains_while_iterator_held_witness :
  let self := (__getitem__ (Index 2) (__init__ (range 10))).1 in
  wf self /\ _iterator self = Some [3; 4; 5; 6; 7; 8; 9]
  /\ py_len (logical self) <= sys_maxsize
  /\ exists il,
       __len__ self = (il, Ok (py_len (logical self)))
       /\ _expanded il = logical self
       /\ _iterator il = None
       /\ next_calls il = S (next_calls self + 7).
Proof.
  set (self := (__getitem__ (Index 2) (__init__ (range 10))).1).
  assert (Hwf : wf self) by reflexivity.
  assert (Hit : _iterator self = Some [3; 4; 5; 6; 7; 8; 9]) by reflexivity.
  assert (Hmax : py_len (logical self) <= sys_maxsize)
    by (vm_compute; discriminate).
  split; [exact Hwf|]. split; [exact Hit|]. split; [exact Hmax|].
  exact (len_drains_while_iterator_held self _ Hwf Hit Hmax).
Defined.

Lemma len_raises_after_exhaustion_witness :
  let self := (__getitem__ (Index 10) (__init__ (range 10))).1 in
  wf self /\ _iterator self = None
  /\ py_len (_expanded self) <= sys_maxsize
  /\ __len__ self = (self, Raise TypeError).
Proof.
  set (self := (__getitem__ (Index 10) (__init__ (range 10))).1).
  assert (Hwf : wf self) by reflexivity.
  assert (Hit : _iterator self = None) by reflexivity.
  assert (Hmax : py_len (_expanded self) <= sys_maxsize)
    by (vm_compute; discriminate).
  split; [exact Hwf|]. split; [exact Hit|]. split; [exact Hmax|].
  exact (len_raises_after_exhaustion self Hwf Hit Hmax).
Defined.

Lemma second_iteration_from_cache_witness :
  wf (__init__ (range 10))
  /\ (length (logical (__init__ (range 10))) < 11)%nat
  /\ exists il,
       collect Legacy 11 Created (__init__ (range 10))
         = Some (il, Ok (Item <$> logical (__init__ (range 10))))
       /\ collect Legacy 11 Created il
          = Some (il, Ok (Item <$> logical (__init__ (range 10)))).
Proof.
  assert (Hwf : wf (__init__ (range 10))) by reflexivity.
  assert (Hfuel : (length (logical (__init__ (range 10))) < 11)%nat)
    by (vm_compute; lia).
  split; [exact Hwf|]. split; [exact Hfuel|].
  exact (second_iteration_from_cache (__init__ (range 10)) 11 Hwf Hfuel).
Defined.

(** ** Slices with unit step *)

Section UnitStepSlices.

Context {T : Type}.
Implicit Types (self : LazyList T) (l xs : list T).

(** Python's [l[a:b]] for [a, b >= 0]. *)
Lemma list_getslice_nonneg l (a b : Z) :
  0 <= a -> 0 <= b ->
  list_getslice l (Slice (Some a) (Some b) None)
  = Ok (drop (Z.to_nat a) (take (Z.to_nat b) l)).
Proof.
  intros Ha Hb. unfold list_getslice. cbn -[Z.div].
  unfold adjust_bound, py_len.
  destruct (Z.ltb_spec a 0) as [?|_]; [lia|].
  destruct (Z.ltb_spec b 0) as [?|_]; [lia|].
  destruct (Z.ltb_spec 1 0) as [?|_]; [lia|].
  f_equal. unfold slice_length.
  destruct (Z.ltb_spec 0 1) as [_|?]; [|lia].
  set (n := Z.of_nat (length l)).
  set (lo := if n <=? a then n else a).
  set (hi := if n <=? b then n else b).
  assert (Hlo : lo = Z.min a n)
    by (subst lo; destruct (Z.leb_spec n a); lia).
  assert (Hhi : hi = Z.min b n)
    by (subst hi; destruct (Z.leb_spec n b); lia).
  clearbody lo hi. subst lo hi.
  destruct (Z.ltb_spec (Z.min a n) (Z.min b n)) as [Hlt|Hge].
  - rewrite Z.div_1_r.
    replace (Z.min a n) with (Z.of_nat (Z.to_nat a)) by lia.
    rewrite slice_collect_unit_step by (subst n; lia).
    rewrite take_drop_commute.
    destruct (decide (Z.to_nat b <= length l)%nat) as [Hb'|Hb'].
    + f_equal. f_equal. subst n. lia.
    + rewrite (take_ge l (Z.to_nat b)) by lia.
      rewrite take_ge; [reflexivity|subst n; lia].
  - cbn [slice_collect]. symmetry. apply drop_ge.
    rewrite length_take. subst n. lia.
Qed.

(** Python's [l[a:]] for [a >= 0]. *)
Lemma list_getslice_open l (a : Z) :
  0 <= a ->
  list_getslice l (Slice (Some a) None None) = Ok (drop (Z.to_nat a) l).
Proof.
  intros Ha.
  transitivity (list_getslice l (Slice (Some a) (Some (py_len l)) None)).
  - unfold list_getslice, adjust_bound, py_len. cbn -[Z.div].
    destruct (Z.ltb_spec (Z.of_nat (length l)) 0) as [?|_]; [lia|].
    rewrite Z.leb_refl. reflexivity.
  - rewrite list_getslice_nonneg by (unfold py_len; lia).
    unfold py_len. rewrite Nat2Z.id, take_ge by lia. reflexivity.
Qed.

Lemma getitem_sliced_state_at xs n calls (s : slice) :
  (n <= length xs)%nat ->
  __getitem__ (Sliced s) (state_at xs n calls) =
    let self1 := (expand_to_slice s (state_at xs n calls)).1 in
    (self1, list_subscript (_expanded self1) (Sliced s)).
Proof.
  intros Hn. unfold __getitem__, try_except, _get, bind.
  cbn [state_at _iterator]. fold (state_at xs n calls).
  rewrite expand_to_slice_state_at by done. cbn zeta.
  destruct (decide _); cbn [fst list_subscript]; unfold list_getslice;
    destruct (_ =? 0); reflexivity.
Qed.

Lemma getitem_sliced_exhausted xs calls (s : slice) :
  __getitem__ (Sliced s) (exhausted xs calls) =
    (exhausted xs calls, list_subscript xs (Sliced s)).
Proof.
  unfold __getitem__, try_except, _get, bind. cbn [exhausted _iterator].
  fold (exhausted xs calls). cbn [_expanded exhausted list_subscript].
  unfold list_getslice. destruct (_ =? 0); reflexivity.
Qed.

(** X6.  [il[a:b]] with [a >= 0] and [b > 0] is Python's [xs[a:b]] on
    the full logical sequence [xs], from any well-formed state.  The
    expansion asks for index [b] itself, so the cache ends one element
    past the slice: [min N (max c (b + 1))] elements, where [c] were
    cached before. *)
Theorem getitem_slice_positive_stop self (a b : Z) :
  wf self ->
  0 <= a -> 0 < b ->
  exists self',
    __getitem__ (Sliced (Slice (Some a) (Some b) None)) self
      = (self', Ok (Items (drop (Z.to_nat a)
                             (take (Z.to_nat b) (logical self)))))
    /\ length (_expanded self')
       = (length (logical self)
          `min` (length (_expanded self) `max` S (Z.to_nat b)))%nat.
Proof.
  intros Hwf Ha Hb.
  destruct (wf_cases self Hwf) as [(xs & n & c & Hn & ->)|(xs & c & ->)].
  - rewrite logical_state_at, getitem_sliced_state_at by done.
    rewrite expand_to_slice_state_at by done. cbn zeta.
    rewrite stop_or_maxsize_spec. cbn [stop].
    rewrite (decide_False (P := b = 0)) by lia.
    replace (Z.to_nat (b + 1)) with (S (Z.to_nat b)) by lia.
    destruct (decide _) as [Hm|Hm]; cbn [fst state_at exhausted _expanded
      list_subscript]; rewrite list_getslice_nonneg by lia.
    + rewrite take_take.
      replace (Z.to_nat b `min` (n `max` S (Z.to_nat b)))%nat
        with (Z.to_nat b) by lia.
      eexists. split; [reflexivity|].
      cbn [state_at _expanded]. rewrite !length_take. lia.
    + eexists. split; [reflexivity|].
      cbn [exhausted _expanded]. rewrite length_take. lia.
  - rewrite logical_exhausted, getitem_sliced_exhausted.
    cbn [list_subscript]. rewrite list_getslice_nonneg by lia.
    eexists. split; [reflexivity|]. cbn [exhausted _expanded]. lia.
Qed.

(** X7.  [il[a:]] with [a >= 0] drains the source: it returns the
    sequence from index [a] on, leaves every element cached and the
    iterator dropped. *)
Theorem getitem_slice_open_stop self (a : Z) :
  wf self ->
  0 <= a ->
  py_len (logical self) <= sys_maxsize ->
  exists self',
    __getitem__ (Sliced (Slice (Some a) None None)) self
      = (self', Ok (Items (drop (Z.to_nat a) (logical self))))
    /\ _expanded self' = logical self
    /\ _iterator self' = None.
Proof.
  unfold py_len. intros Hwf Ha Hmax.
  destruct (wf_cases self Hwf) as [(xs & n & c & Hn & ->)|(xs & c & ->)].
  - rewrite logical_state_at in *. rewrite getitem_sliced_state_at by done.
    rewrite expand_to_slice_state_at by done. cbn zeta.
    rewrite stop_or_maxsize_spec. cbn [stop].
    rewrite decide_False by lia. cbn [fst exhausted _expanded list_subscript].
    rewrite list_getslice_open by done. eexists. done.
  - rewrite logical_exhausted in *. rewrite getitem_sliced_exhausted.
    cbn [list_subscript]. rewrite list_getslice_open by done.
    eexists. done.
Qed.

(** X8.  A slice with a negative stop never touches the source: the
    state is left as it is and the slice is taken from the cache as it
    is at that moment.  On a new adapter [il[a:v]] with [v < 0] is
    therefore the empty list, whatever the source holds. *)
Theorem getitem_slice_negative_stop self (s : slice) (v : Z) :
  wf self ->
  stop s = Some v -> v < 0 ->
  __getitem__ (Sliced s) self
    = (self, list_subscript (_expanded self) (Sliced s))
  /\ (forall xs a,
        __getitem__ (Sliced (Slice a (Some v) None)) (__init__ xs)
        = (__init__ xs, Ok (Items []))).
Proof.
  intros Hwf Hs Hv.
  assert (Hgen : forall self' s', wf self' -> stop s' = Some v ->
    __getitem__ (Sliced s') self'
    = (self', list_subscript (_expanded self') (Sliced s'))).
  { clear self s Hwf Hs. intros self s Hwf Hs.
    destruct (wf_cases self Hwf) as [(xs & n & c & Hn & ->)|(xs & c & ->)].
    - rewrite getitem_sliced_state_at by done.
      rewrite expand_to_slice_state_at by done. cbn zeta.
      rewrite stop_or_maxsize_spec, Hs.
      rewrite (decide_False (P := v = 0)) by lia.
      replace (n `max` Z.to_nat (v + 1))%nat with n by lia.
      rewrite decide_True by lia.
      replace (c + (n - n))%nat with c by lia. reflexivity.
    - apply getitem_sliced_exhausted. }
  split; [by apply Hgen|].
  intros xs a. rewrite (Hgen (__init__ xs)) by done.
  cbn [__init__ _expanded list_subscript].
  unfold list_getslice. cbn [step]. cbn zeta.
  change (1 =? 0) with false. cbv iota.
  destruct (slice_length _ _ _); reflexivity.
Qed.

(** X9.  A slice with step [0] raises [ValueError], but only when the
    cache is read, after the expansion has run: [il[a::0]] drains the
    source before it fails. *)
Theorem getitem_slice_step_zero self (a b : option Z) :
  wf self ->
  (__getitem__ (Sliced (Slice a b (Some 0))) self).2 = Raise ValueError
  /\ (b = None -> py_len (logical self) <= sys_maxsize ->
      let self' := (__getitem__ (Sliced (Slice a b (Some 0))) self).1 in
      _expanded self' = logical self /\ _iterator self' = None).
Proof.
  unfold py_len. intros Hwf.
  destruct (wf_cases self Hwf) as [(xs & n & c & Hn & ->)|(xs & c & ->)].
  - rewrite logical_state_at, getitem_sliced_state_at by done.
    split; [reflexivity|]. intros -> Hmax. cbn zeta. cbn [fst].
    rewrite expand_to_slice_state_at by done. cbn zeta.
    rewrite stop_or_maxsize_spec. cbn [stop].
    rewrite decide_False by lia. done.
  - rewrite logical_exhausted, getitem_sliced_exhausted. done.
Qed.

End UnitStepSlices.

Lemma getitem_slice_positive_stop_witness :
  let self := (__getitem__ (Index 5) (__init__ (range 10))).1 in
  wf self /\ 0 <= 5 /\ 0 < 8
  /\ exists il,
       __getitem__ (Sliced (Slice (Some 5) (Some 8) None)) self
         = (il, Ok (Items [5; 6; 7]))
       /\ length (_expanded il) = 9%nat.
Proof.
  set (self := (__getitem__ (Index 5) (__init__ (range 10))).1).
  assert (Hwf : wf self) by reflexivity.
  assert (Ha : 0 <= 5) by lia.
  assert (Hb : 0 < 8) by lia.
  split; [exact Hwf|]. split; [exact Ha|]. split; [exact Hb|].
  exact (getitem_slice_positive_stop self 5 8 Hwf Ha Hb).
Defined.

Lemma getitem_slice_open_stop_witness :
  wf (__init__ (range 10)) /\ 0 <= 7
  /\ py_len (logical (__init__ (range 10))) <= sys_maxsize
  /\ exists il,
       __getitem__ (Sliced (Slice (Some 7) None None)) (__init__ (range 10))
         = (il, Ok (Items [7; 8; 9]))
       /\ _expanded il = range 10
       /\ _iterator il = None.
Proof.
  assert (Hwf : wf (__init__ (range 10))) by reflexivity.
  assert (Ha : 0 <= 7) by lia.
  assert (Hmax : py_len (logical (__init__ (range 10))) <= sys_maxsize)
    by (vm_compute; discriminate).
  split; [exact Hwf|]. split; [exact Ha|]. split; [exact Hmax|].
  exact (getitem_slice_open_stop (__init__ (range 10)) 7 Hwf Ha Hmax).
Defined.

Lemma getitem_slice_negative_stop_witness :
  let self := (__getitem__ (Index 5) (__init__ (range 10))).1 in
  wf self /\ stop (Slice None (Some (-1)) None) = Some (-1) /\ -1 < 0
  /\ __getitem__ (Sliced (Slice None (Some (-1)) None)) self
     = (self, Ok (Items [0; 1; 2; 3; 4])).
Proof.
  set (self := (__getitem__ (Index 5) (__init__ (range 10))).1).
  assert (Hwf : wf self) by reflexivity.
  assert (Hs : stop (Slice None (Some (-1)) None) = Some (-1)) by reflexivity.
  assert (Hv : -1 < 0) by lia.
  split; [exact Hwf|]. split; [exact Hs|]. split; [exact Hv|].
  exact (proj1 (getitem_slice_negative_stop self _ (-1) Hwf Hs Hv)).
Defined.

Lemma getitem_slice_step_zero_witness :
  wf (__init__ (range 10))
  /\ (__getitem__ (Sliced (Slice None None (Some 0)))
        (__init__ (range 10))).2 = Raise ValueError
  /\ (@None Z = None ->
      py_len (logical (__init__ (range 10))) <= sys_maxsize ->
      let il := (__getitem__ (Sliced (Slice None None (Some 0)))
                   (__init__ (range 10))).1 in
      _expanded il = logical (__init__ (range 10)) /\ _iterator il = None).
Proof.
  assert (Hwf : wf (__init__ (range 10))) by reflexivity.
  split; [exact Hwf|].
  exact (getitem_slice_step_zero (__init__ (range 10)) None None Hwf).
Defined.

(** ** Two cursors over one adapter *)

Section Cursors.

Context {T : Type}.
Implicit Types (self : LazyList T) (xs : list T).

Lemma interleave_state_at p xs (schedule : list bool) (n calls j1 j2 : nat) :
  (n <= length xs)%nat -> (j1 <= n)%nat -> (j2 <= n)%nat ->
  (j1 + turns true schedule <= length xs)%nat ->
  (j2 + turns false schedule <= length xs)%nat ->
  interleave p schedule (gen_at j1) (gen_at j2) (state_at xs n calls) =
    let a := turns true schedule in
    let b := turns false schedule in
    let m := (n `max` ((j1 + a) `max` (j2 + b)))%nat in
    (state_at xs m (calls + (m - n)),
     (gen_at (j1 + a), gen_at (j2 + b)),
     ((fun x => Ok (Item x)) <$> take a (drop j1 xs),
      (fun x => Ok (Item x)) <$> take b (drop j2 xs))).
Proof.
  revert n calls j1 j2.
  induction schedule as [|[|] schedule IH];
    intros n calls j1 j2 Hn Hj1 Hj2 Ha Hb; cbn [interleave turns Bool.eqb] in *.
  - cbn zeta. rewrite !Nat.add_0_r.
    replace (n `max` (j1 `max` j2))%nat with n by lia.
    replace (calls + (n - n))%nat with calls by lia. reflexivity.
  - rewrite gen_next_state_at by done.
    destruct (lookup_lt_is_Some_2 xs j1 ltac:(lia)) as [x Hx]. rewrite Hx.
    rewrite IH by lia. cbn zeta.
    rewrite (drop_S xs x j1 Hx). cbn [take fmap list_fmap].
    replace (S j1 + turns true schedule)%nat
      with (j1 + S (turns true schedule))%nat by lia.
    match goal with
    | |- (state_at xs ?m1 ?c1, _, _) = (state_at xs ?m2 ?c2, _, _) =>
        replace c1 with c2 by lia; replace m1 with m2 by lia
    end.
    reflexivity.
  - rewrite gen_next_state_at by done.
    destruct (lookup_lt_is_Some_2 xs j2 ltac:(lia)) as [x Hx]. rewrite Hx.
    rewrite IH by lia. cbn zeta.
    rewrite (drop_S xs x j2 Hx). cbn [take fmap list_fmap].
    replace (S j2 + turns false schedule)%nat
      with (j2 + S (turns false schedule))%nat by lia.
    match goal with
    | |- (state_at xs ?m1 ?c1, _, _) = (state_at xs ?m2 ?c2, _, _) =>
        replace c1 with c2 by lia; replace m1 with m2 by lia
    end.
    reflexivity.
Qed.

(** X10.  Two cursors obtained from [__iter__] on a new adapter and
    resumed in any order each yield the elements from index 0 on, in
    order, and do not see each other's position.  The source is called
    once per index reached by the cursor that is further ahead: after
    [a] steps of one and [b] of the other exactly [max a b] elements are
    cached, not [a + b]. *)
Theorem two_cursors_share_cache p xs (schedule : list bool) :
  (turns true schedule <= length xs)%nat ->
  (turns false schedule <= length xs)%nat ->
  let a := turns true schedule in
  let b := turns false schedule in
  interleave p schedule Created Created (__init__ xs) =
    (state_at xs (a `max` b) (a `max` b),
     (gen_at a, gen_at b),
     ((fun x => Ok (Item x)) <$> take a xs,
      (fun x => Ok (Item x)) <$> take b xs)).
Proof.
  intros Ha Hb. cbn zeta. change Created with (gen_at 0).
  rewrite init_state_at, interleave_state_at by lia. cbn zeta.
  rewrite drop_0. cbn [Nat.add Nat.max]. rewrite Nat.sub_0_r. reflexivity.
Qed.

End Cursors.

Lemma two_cursors_share_cache_witness :
  (turns true [true; true; false; true] <= length (range 10))%nat
  /\ (turns false [true; true; false; true] <= length (range 10))%nat
  /\ interleave Legacy [true; true; false; true] Created Created
       (__init__ (range 10))
     = (state_at (range 10) 3 3, (gen_at 3, gen_at 1),
        ([Ok (Item 0); Ok (Item 1); Ok (Item 2)], [Ok (Item 0)])).
Proof.
  assert (Ha : (turns true [true; true; false; true]
                <= length (range 10))%nat) by (vm_compute; lia).
  assert (Hb : (turns false [true; true; false; true]
                <= length (range 10))%nat) by (vm_compute; lia).
  split; [exact Ha|]. split; [exact Hb|].
  exact (two_cursors_share_cache Legacy (range 10)
           [true; true; false; true] Ha Hb).
Defined.

(** ** The end of an iteration under each generator protocol *)

Section EndOfIteration.

Context {T : Type} `{EqDecision T}.
Implicit Types (self : LazyList T) (xs : list T).

Lemma collect_pep479_state_at xs n calls (j fuel : nat) :
  (n <= length xs)%nat -> (j <= length xs)%nat ->
  (length xs - j < fuel)%nat ->
  collect PEP479 fuel (gen_at j) (state_at xs n calls) =
    Some (exhausted xs (S (calls + (length xs - n))), Raise RuntimeError).
Proof.
  revert j n calls.
  induction fuel as [|fuel IH]; intros j n calls Hn Hj Hfuel; [lia|].
  cbn [collect]. rewrite gen_next_state_at by done.
  destruct (xs !! j) as [x|] eqn:Hx.
  - apply lookup_lt_Some in Hx as Hlt.
    rewrite IH by lia. do 3 f_equal. lia.
  - reflexivity.
Qed.

Lemma collect_pep479_exhausted xs calls (j fuel : nat) :
  (j <= length xs)%nat -> (length xs - j < fuel)%nat ->
  collect PEP479 fuel (gen_at j) (exhausted xs calls) =
    Some (exhausted xs calls, Raise RuntimeError).
Proof.
  revert j. induction fuel as [|fuel IH]; intros j Hj Hfuel; [lia|].
  cbn [collect]. rewrite gen_next_exhausted.
  destruct (xs !! j) as [x|] eqn:Hx.
  - apply lookup_lt_Some in Hx as Hlt. rewrite IH by lia. reflexivity.
  - reflexivity.
Qed.

(** X11.  Under the generator protocol of Python 3.7 and later, a
    complete iteration of the adapter never ends normally: from any
    well-formed state [list(il)] raises [RuntimeError], after all
    elements have been cached.  The [StopIteration] that ends the
    generator (raised in the [except IndexError] clause, or passed on
    from [expand_to_index]) leaves the generator body. *)
Theorem iteration_raises_under_pep479 self (fuel : nat) :
  wf self ->
  (length (logical self) < fuel)%nat ->
  exists self',
    collect PEP479 fuel Created self = Some (self', Raise RuntimeError)
    /\ _expanded self' = logical self
    /\ _iterator self' = None.
Proof.
  intros Hwf Hfuel. change Created with (gen_at 0).
  destruct (wf_cases self Hwf) as [(xs & n & c & Hn & ->)|(xs & c & ->)].
  - rewrite logical_state_at in *.
    rewrite collect_pep479_state_at by lia. eexists. done.
  - rewrite logical_exhausted in *.
    rewrite collect_pep479_exhausted by lia. eexists. done.
Qed.

(** X12.  Under that protocol [bool(il)] still answers [True] for a
    non-empty sequence, but raises [RuntimeError] for an empty one
    instead of answering [False]. *)
Theorem bool_under_pep479 self :
  wf self ->
  (__bool__ PEP479 self).2 =
    match logical self with
    | [] => Raise RuntimeError
    | _ :: _ => Ok true
    end.
Proof.
  intros Hwf. unfold __bool__. change Created with (gen_at 0).
  destruct (wf_cases self Hwf) as [(xs & n & c & Hn & ->)|(xs & c & ->)].
  - rewrite gen_next_state_at, logical_state_at by done.
    destruct xs; reflexivity.
  - rewrite gen_next_exhausted, logical_exhausted.
    destruct xs; reflexivity.
Qed.

Lemma contains_loop_absent_state_at xs n calls v (j fuel : nat) :
  (n <= length xs)%nat -> (j <= length xs)%nat ->
  (forall i y, xs !! i = Some y -> y <> v) ->
  (length xs - j < fuel)%nat ->
  contains_loop Legacy fuel (Item v) (gen_at j) (state_at xs n calls) =
    Some (exhausted xs (S (calls + (length xs - n))), Ok false).
Proof.
  intros Hn Hj Habsent. revert j n calls Hn Hj.
  induction fuel as [|fuel IH]; intros j n calls Hn Hj Hfuel; [lia|].
  cbn [contains_loop]. rewrite gen_next_state_at by done.
  destruct (xs !! j) as [y|] eqn:Hy.
  - apply lookup_lt_Some in Hy as Hlt.
    destruct (decide (Item y = Item v)) as [[= ->]|_].
    + exfalso. by eapply Habsent.
    + rewrite IH by lia. do 3 f_equal. lia.
  - reflexivity.
Qed.

Lemma contains_loop_absent_exhausted xs calls v (j fuel : nat) :
  (j <= length xs)%nat ->
  (forall i y, xs !! i = Some y -> y <> v) ->
  (length xs - j < fuel)%nat ->
  contains_loop Legacy fuel (Item v) (gen_at j) (exhausted xs calls) =
    Some (exhausted xs calls, Ok false).
Proof.
  intros Hj Habsent. revert j Hj.
  induction fuel as [|fuel IH]; intros j Hj Hfuel; [lia|].
  cbn [contains_loop]. rewrite gen_next_exhausted.
  destruct (xs !! j) as [y|] eqn:Hy.
  - apply lookup_lt_Some in Hy as Hlt.
    destruct (decide (Item y = Item v)) as [[= ->]|_].
    + exfalso. by eapply Habsent.
    + rewrite IH by lia. reflexivity.
  - reflexivity.
Qed.

(** X13.  [v in il] for a value that does not occur in a finite
    sequence returns [False], after the whole source has been pulled
    into the cache and the iterator dropped.  (Generator protocol of the
    Python versions the file is written for.) *)
Theorem contains_absent_value_drains self v (fuel : nat) :
  wf self ->
  (forall i y, logical self !! i = Some y -> y <> v) ->
  (length (logical self) < fuel)%nat ->
  exists self',
    contains Legacy fuel (Item v) self = Some (self', Ok false)
    /\ _expanded self' = logical self
    /\ _iterator self' = None.
Proof.
  intros Hwf Habsent Hfuel. unfold contains. change Created with (gen_at 0).
  destruct (wf_cases self Hwf) as [(xs & n & c & Hn & ->)|(xs & c & ->)].
  - rewrite logical_state_at in *.
    rewrite contains_loop_absent_state_at by (done || lia). eexists. done.
  - rewrite logical_exhausted in *.
    rewrite contains_loop_absent_exhausted by (done || lia). eexists. done.
Qed.

End EndOfIteration.

Lemma iteration_raises_under_pep479_witness :
  wf (__init__ (range 10))
  /\ (length (logical (__init__ (range 10))) < 11)%nat
  /\ exists il,
       collect PEP479 11 Created (__init__ (range 10))
         = Some (il, Raise RuntimeError)
       /\ _expanded il = logical (__init__ (range 10))
       /\ _iterator il = None.
Proof.
  assert (Hwf : wf (__init__ (range 10))) by reflexivity.
  assert (Hfuel : (length (logical (__init__ (range 10))) < 11)%nat)
    by (vm_compute; lia).
  split; [exact Hwf|]. split; [exact Hfuel|].
  exact (iteration_raises_under_pep479 (__init__ (range 10)) 11 Hwf Hfuel).
Defined.

Lemma bool_under_pep479_witness :
  wf (__init__ (@nil Z))
  /\ (__bool__ PEP479 (__init__ (@nil Z))).2 = Raise RuntimeError.
Proof.
  assert (Hwf : wf (__init__ (@nil Z))) by reflexivity.
  split; [exact Hwf|].
  exact (bool_under_pep479 (__init__ (@nil Z)) Hwf).
Defined.

Lemma contains_absent_value_drains_witness :
  wf (__init__ (range 10))
  /\ (forall i y, logical (__init__ (range 10)) !! i = Some y -> y <> 55)
  /\ (length (logical (__init__ (range 10))) < 11)%nat
  /\ exists il,
       contains Legacy 11 (Item 55) (__init__ (range 10)) = Some (il, Ok false)
       /\ _expanded il = logical (__init__ (range 10))
       /\ _iterator il = None.
Proof.
  assert (Hwf : wf (__init__ (range 10))) by reflexivity.
  assert (Habsent : forall i y,
    logical (__init__ (range 10)) !! i = Some y -> y <> 55).
  { intros i y Hy. change (logical (__init__ (range 10))) with (range 10) in Hy.
    apply lookup_seqZ in Hy. lia. }
  assert (Hfuel : (length (logical (__init__ (range 10))) < 11)%nat)
    by (vm_compute; lia).
  split; [exact Hwf|]. split; [exact Habsent|]. split; [exact Hfuel|].
  exact (contains_absent_value_drains (__init__ (range 10)) 55 11
           Hwf Habsent Hfuel).
Defined.

(** ** The cost of a run of operations *)

Section Accounting.

Context {T : Type} `{EqDecision T}.
Implicit Types (self : LazyList T) (xs : list T).

Lemma advance_refl self : wf self -> advance self self.
Proof.
  intros Hwf.
  destruct (wf_cases self Hwf) as [(xs & n & c & Hn & ->)|(xs & c & ->)].
  - replace c with (c + (n - n))%nat at 2 by lia. by constructor.
  - constructor.
Qed.

Lemma state_at_inj xs xs' n n' calls calls' :
  state_at xs n calls = state_at xs' n' calls' ->
  xs = xs' /\ n = n' /\ calls = calls'.
Proof.
  intros [= Htake Hdrop Hn Hc]. apply Nat2Z.inj in Hn as ->.
  rewrite <- (take_drop n' xs), <- (take_drop n' xs'), Htake, Hdrop. done.
Qed.

Lemma advance_from_state_at xs n calls self' :
  advance (state_at xs n calls) self' ->
  (exists m, (n <= m <= length xs)%nat
             /\ self' = state_at xs m (calls + (m - n)))
  \/ ((n <= length xs)%nat
      /\ self' = exhausted xs (S (calls + (length xs - n)))).
Proof.
  intros Hadv. remember (state_at xs n calls) as self eqn:Heq.
  destruct Hadv as [xs0 n0 m c0 Hm|xs0 n0 c0 Hn|xs0 c0].
  - apply state_at_inj in Heq as (-> & -> & ->). left. eauto.
  - apply state_at_inj in Heq as (-> & -> & ->). right. eauto.
  - discriminate Heq.
Qed.

Lemma advance_from_exhausted xs calls self' :
  advance (exhausted xs calls) self' -> self' = exhausted xs calls.
Proof.
  intros Hadv. remember (exhausted xs calls) as self eqn:Heq.
  destruct Hadv as [xs0 n0 m c0 Hm|xs0 n0 c0 Hn|xs0 c0];
    [discriminate Heq..|reflexivity].
Qed.

Lemma advance_trans self1 self2 self3 :
  advance self1 self2 -> advance self2 self3 -> advance self1 self3.
Proof.
  intros H12 H23. destruct H12 as [xs n m c Hm|xs n c Hn|xs c].
  - apply advance_from_state_at in H23 as [(m' & Hm' & ->)|(Hm' & ->)].
    + replace (c + (m - n) + (m' - m))%nat with (c + (m' - n))%nat by lia.
      constructor. lia.
    + replace (c + (m - n) + (length xs - m))%nat
        with (c + (length xs - n))%nat by lia.
      constructor. lia.
  - apply advance_from_exhausted in H23 as ->. by constructor.
  - exact H23.
Qed.

Lemma expand_to_index_advance d self :
  wf self -> advance self (expand_to_index d self).1.
Proof.
  intros Hwf.
  destruct (wf_cases self Hwf) as [(xs & n & c & Hn & ->)|(xs & c & ->)].
  - rewrite expand_to_index_state_at by done. cbn zeta.
    destruct (decide _); cbn [fst]; constructor; lia.
  - unfold expand_to_index. cbn [exhausted _iterator _expanded_len].
    destruct (_ <=? _); constructor.
Qed.

Lemma expand_to_slice_advance desired_slice self :
  wf self -> advance self (expand_to_slice desired_slice self).1.
Proof.
  intros Hwf.
  destruct (wf_cases self Hwf) as [(xs & n & c & Hn & ->)|(xs & c & ->)].
  - rewrite expand_to_slice_state_at by done. cbn zeta.
    destruct (decide _); cbn [fst]; constructor; lia.
  - rewrite expand_to_slice_exhausted. constructor.
Qed.

Lemma gen_next_advance p g self :
  wf self -> advance self (gen_next p g self).1.1.
Proof.
  intros Hwf.
  assert (Hget : forall sub, advance self (_get sub self).1).
  { intros sub. rewrite get_state.
    destruct (_iterator self); [|by apply advance_refl].
    destruct sub; [by apply expand_to_index_advance|
                   by apply expand_to_slice_advance]. }
  assert (Hround : forall index,
    advance self (iterate_round p index self).1.1).
  { intros index. unfold iterate_round.
    pose proof (Hget (Index index)) as Hadv.
    destruct (_get (Index index) self) as [self1 [v|[]]]; exact Hadv. }
  destruct g; cbn [gen_next]; [apply Hround..|by apply advance_refl].
Qed.

Lemma advance_wf self self' : advance self self' -> wf self'.
Proof.
  intros [xs n m c Hm|xs n c Hn|xs c];
    [apply wf_state_at; lia|apply wf_exhausted..].
Qed.

Lemma contains_loop_advance p fuel v g self self' r :
  wf self ->
  contains_loop p fuel v g self = Some (self', r) ->
  advance self self'.
Proof.
  revert g self. induction fuel as [|fuel IH]; intros g self Hwf; [done|].
  cbn [contains_loop].
  pose proof (gen_next_advance p g self Hwf) as Hadv.
  destruct (gen_next p g self) as [[self1 g1] [y|e]]; cbn [fst] in Hadv.
  - destruct (decide (y = v)).
    + intros [= <- _]. exact Hadv.
    + intros Hrun. eapply advance_trans; [exact Hadv|].
      eapply IH; [by eapply advance_wf|exact Hrun].
  - destruct e; intros [= <- _]; exact Hadv.
Qed.

Lemma exec_advance p fuel (o : op) self self' :
  wf self -> exec p fuel o self = Some self' -> advance self self'.
Proof.
  intros Hwf Hexec. destruct o; cbn [exec] in Hexec.
  - injection Hexec as <-. rewrite getitem_state, get_state.
    destruct (_iterator self); [|by apply advance_refl].
    destruct sub; [by apply expand_to_index_advance|
                   by apply expand_to_slice_advance].
  - injection Hexec as <-. by apply gen_next_advance.
  - injection Hexec as <-. unfold __len__, bind, try_except.
    pose proof (expand_to_index_advance sys_maxsize self Hwf) as Hadv.
    destruct (expand_to_index sys_maxsize self) as [self1 [[]|[]]];
      exact Hadv.
  - injection Hexec as <-. unfold __bool__.
    pose proof (gen_next_advance p Created self Hwf) as Hadv.
    destruct (gen_next p Created self) as [[self1 g] [w|[]]]; exact Hadv.
  - unfold contains in Hexec.
    destruct (contains_loop p fuel v Created self) as [[s r]|] eqn:Hrun;
      [|done].
    injection Hexec as <-. by eapply contains_loop_advance.
  - injection Hexec as <-. by apply expand_to_index_advance.
  - injection Hexec as <-. by apply expand_to_slice_advance.
Qed.

Lemma advance_accounted self self' :
  advance self self' -> accounted self ->
  accounted self' /\ logical self' = logical self.
Proof.
  unfold accounted.
  intros [xs n m c Hm|xs n c Hn|xs c];
    cbn [state_at exhausted _expanded _iterator next_calls];
    rewrite ?length_take, ?logical_state_at, ?logical_exhausted;
    intros Hacc; (split; [lia|reflexivity]).
Qed.

(** X14.  Whatever operations are run on an adapter, in whatever order,
    every cached element has cost exactly one call of [next] on the
    source, plus a single failing call if the iterator has been
    dropped: no element is ever pulled twice and an exhausted source is
    never asked again.  So the source is called at most [N + 1] times
    in all, and the cache is always a prefix of the source's
    sequence. *)
Theorem source_calls_accounted p (fuel : nat) (ops : list op) xs self' :
  exec_all p fuel ops (__init__ xs) = Some self' ->
  accounted self'
  /\ (next_calls self' <= S (length xs))%nat
  /\ _expanded self' `prefix_of` xs
  /\ logical self' = xs.
Proof.
  assert (Hrun : forall self, wf self -> accounted self ->
    exec_all p fuel ops self = Some self' ->
    accounted self' /\ logical self' = logical self).
  { induction ops as [|o ops IH]; intros self Hwf Hacc; cbn [exec_all].
    - intros [= <-]. done.
    - destruct (exec p fuel o self) as [self1|] eqn:Hexec; [|done].
      intros Hrest. apply exec_advance in Hexec as Hadv; [|done].
      destruct (advance_accounted _ _ Hadv Hacc) as [Hacc1 Hlog1].
      destruct (IH self1 (advance_wf _ _ Hadv) Hacc1 Hrest) as [? ?].
      split; [done|congruence]. }
  intros Hexec.
  destruct (Hrun (__init__ xs)) as [Hacc Hlog]; [done|done|done|].
  change (logical (__init__ xs)) with xs in Hlog.
  assert (Hpre : _expanded self' `prefix_of` xs).
  { rewrite <- Hlog. unfold logical. by apply prefix_app_r. }
  split; [exact Hacc|]. split; [|done].
  apply prefix_length in Hpre. unfold accounted in Hacc.
  destruct (_iterator self'); lia.
Qed.

End Accounting.

Lemma source_calls_accounted_witness :
  let ops := [OpGetitem (Index 3); OpBool; OpContains (Item 5);
              OpGetitem (Sliced (Slice (Some 1) (Some 4) None)); OpLen;
              OpGetitem (Index 1); OpLen] in
  exists il,
    exec_all Legacy 11 ops (__init__ (range 10)) = Some il
    /\ accounted il
    /\ (next_calls il <= S (length (range 10)))%nat
    /\ _expanded il `prefix_of` range 10
    /\ logical il = range 10.
Proof.
  cbn zeta. eexists. split; [reflexivity|].
  apply (source_calls_accounted Legacy 11
           [OpGetitem (Index 3); OpBool; OpContains (Item 5);
            OpGetitem (Sliced (Slice (Some 1) (Some 4) None)); OpLen;
            OpGetitem (Index 1); OpLen]).
  reflexivity.
Defined.

(** ** Open slices and Python's own slicing *)

Section OpenSlices.

Context {T : Type}.
Implicit Types (self : LazyList T) (xs : list T).

(** X15.  A slice without stop, whatever its start and step (negative
    ones included, as in [il[-3:]] or [il[::-1]]), drains the source
    and then gives exactly what Python's slicing gives on the list of
    all elements; a zero step gives its [ValueError]. *)
Theorem getitem_open_slice_is_native self (s : slice) :
  wf self ->
  stop s = None ->
  py_len (logical self) <= sys_maxsize ->
  exists self',
    __getitem__ (Sliced s) self
      = (self', list_subscript (logical self) (Sliced s))
    /\ _expanded self' = logical self
    /\ _iterator self' = None.
Proof.
  unfold py_len. intros Hwf Hs Hmax.
  destruct (wf_cases self Hwf) as [(xs & n & c & Hn & ->)|(xs & c & ->)].
  - rewrite logical_state_at in *. rewrite getitem_sliced_state_at by done.
    rewrite expand_to_slice_state_at by done. cbn zeta.
    rewrite stop_or_maxsize_spec, Hs.
    rewrite decide_False by lia. cbn [fst exhausted _expanded].
    eexists. done.
  - rewrite logical_exhausted in *. rewrite getitem_sliced_exhausted.
    eexists. done.
Qed.

End OpenSlices.

Lemma getitem_open_slice_is_native_witness :
  wf (__init__ (range 5))
  /\ stop (Slice None None (Some (-1))) = None
  /\ py_len (logical (__init__ (range 5))) <= sys_maxsize
  /\ exists il,
       __getitem__ (Sliced (Slice None None (Some (-1)))) (__init__ (range 5))
         = (il, Ok (Items [4; 3; 2; 1; 0]))
       /\ _expanded il = range 5
       /\ _iterator il = None.
Proof.
  assert (Hwf : wf (__init__ (range 5))) by reflexivity.
  assert (Hs : stop (Slice None None (Some (-1))) = None) by reflexivity.
  assert (Hmax : py_len (logical (__init__ (range 5))) <= sys_maxsize)
    by (vm_compute; discriminate).
  split; [exact Hwf|]. split; [exact Hs|]. split; [exact Hmax|].
  exact (getitem_open_slice_is_native (__init__ (range 5))
           (Slice None None (Some (-1))) Hwf Hs Hmax).
Defined.
